(** * FarmOps SMS: the command interpretation engine of [app/parser.py]

    A shallow embedding of [CommandParser.parse], of the extractors it
    dispatches to, and of [generate_response], followed by the properties
    of the engine that the specification states.

    Modelling conventions.
    - Text is a [string] of 8-bit characters.  The character predicates
      (whitespace, digits, word characters, case mapping) are the ones the
      interpreter applies on the ASCII range; characters above 127 are
      treated as caseless symbols.  Non-ASCII characters of the response
      templates appear in their UTF-8 encoding.  The embedding of [strip],
      [lower], [upper], [title] and of the classes [\d], [\w], [\s] is
      therefore exact on ASCII text ([Py.isascii]) and only there: where a
      property would not hold of the interpreter's own primitives on other
      text, it is stated for ASCII input.
    - [date.today()] is an input of the parser: every function that reads
      the clock takes the current date as its first argument (one reading
      per parse).
    - Python floats are the kernel's binary64 floats.
    - Exceptions are values: fallible code returns [result]. *)

From Stdlib Require Import ZArith NArith List String Ascii Bool Lia.
From Stdlib Require Import Floats.
Import ListNotations.

Set Warnings "-inexact-float,-register-all".

Open Scope string_scope.
Open Scope bool_scope.

(* ================================================================= *)
(** ** Exceptions *)

Inductive exn : Type :=
| ValueError
| OverflowError
| TypeError
| KeyError
| AttributeError.

Inductive result (A : Type) : Type :=
| Ok (a : A)
| Err (e : exn).

Arguments Ok {A} a.
Arguments Err {A} e.

Definition bind {A B : Type} (m : result A) (f : A -> result B) : result B :=
  match m with
  | Ok a => f a
  | Err e => Err e
  end.

Notation "x <- m ;; k" := (bind m (fun x => k))
  (at level 61, m at next level, right associativity).

(* ================================================================= *)
(** ** Python string primitives *)

Module Py.

Definition in_range (lo hi c : ascii) : bool :=
  (N_of_ascii lo <=? N_of_ascii c)%N && (N_of_ascii c <=? N_of_ascii hi)%N.

(** The character classes and the case mapping below are those of the
    interpreter on the ASCII range. *)
Definition isupper (c : ascii) : bool := in_range "A" "Z" c.
Definition islower (c : ascii) : bool := in_range "a" "z" c.
Definition isalpha (c : ascii) : bool := isupper c || islower c.
Definition isdigit (c : ascii) : bool := in_range "0" "9" c.

(** [str.isspace] and the regex class [\s] on ASCII: TAB, LF, VT, FF,
    CR, the separators FS, GS, RS, US, and the space. *)
Definition isspace (c : ascii) : bool :=
  in_range "009" "013" c || in_range "028" " " c.

(** The regex class [\w] on ASCII. *)
Definition isword (c : ascii) : bool :=
  isalpha c || isdigit c || Ascii.eqb c "_".

(** The regex class [.] (no DOTALL flag). *)
Definition notnl (c : ascii) : bool := negb (Ascii.eqb c "010").

(** The regex class [[\d.]]. *)
Definition isdigit_or_dot (c : ascii) : bool :=
  isdigit c || Ascii.eqb c ".".

Definition lower_char (c : ascii) : ascii :=
  if isupper c then ascii_of_N (N_of_ascii c + 32) else c.

Definition upper_char (c : ascii) : ascii :=
  if islower c then ascii_of_N (N_of_ascii c - 32) else c.

Fixpoint map_str (f : ascii -> ascii) (s : string) : string :=
  match s with
  | EmptyString => EmptyString
  | String c s' => String (f c) (map_str f s')
  end.

(** [str.lower] and [str.upper] of ASCII text. *)
Definition lower (s : string) : string := map_str lower_char s.
Definition upper (s : string) : string := map_str upper_char s.

(** [str.title] of ASCII text: a cased character is upper-cased when the
    character before it is not cased, and lower-cased otherwise. *)
Fixpoint title_from (prev_cased : bool) (s : string) : string :=
  match s with
  | EmptyString => EmptyString
  | String c s' =>
      String (if prev_cased then lower_char c else upper_char c)
             (title_from (isalpha c) s')
  end.

Definition title (s : string) : string := title_from false s.

Fixpoint lstrip (s : string) : string :=
  match s with
  | EmptyString => EmptyString
  | String c s' => if isspace c then lstrip s' else s
  end.

Fixpoint rstrip (s : string) : string :=
  match s with
  | EmptyString => EmptyString
  | String c s' =>
      match rstrip s' with
      | EmptyString => if isspace c then EmptyString else String c EmptyString
      | r => String c r
      end
  end.

(** [str.strip()] of ASCII text. *)
Definition strip (s : string) : string := rstrip (lstrip s).

(** [sub in s]. *)
Fixpoint contains (sub s : string) : bool :=
  prefix sub s ||
  match s with
  | EmptyString => false
  | String _ s' => contains sub s'
  end.

(** [any(w in s for w in words)]. *)
Definition any_in (words : list string) (s : string) : bool :=
  existsb (fun w => contains w s) words.

(** [s in literals] for a list of strings. *)
Definition mem (s : string) (literals : list string) : bool :=
  existsb (String.eqb s) literals.

Fixpoint take (n : nat) (s : string) : string :=
  match n, s with
  | S n', String c s' => String c (take n' s')
  | _, _ => EmptyString
  end.

Fixpoint drop (n : nat) (s : string) : string :=
  match n, s with
  | S n', String _ s' => drop n' s'
  | _, _ => s
  end.

Fixpoint all_chars (p : ascii -> bool) (s : string) : bool :=
  match s with
  | EmptyString => true
  | String c s' => p c && all_chars p s'
  end.

(** [s.isascii()]: the texts on which the primitives above are the
    interpreter's. *)
Definition isascii (s : string) : bool :=
  all_chars (fun c => (N_of_ascii c <? 128)%N) s.

End Py.

(* ================================================================= *)
(** ** The fragment of [re] the parser uses

    Backtracking matcher in continuation-passing style: alternatives are
    tried left to right, [?] and [*] are greedy, and [search] scans the
    start offsets from left to right.  Repetition is only ever applied to
    a character class in the parser's patterns, so [Star] carries a class
    and the matcher recurses on the pattern and, for [Star], on the text. *)

Module Re.

Inductive regex : Type :=
| Eps
| Lit (l : string)
| Cls (p : ascii -> bool)
| Star (p : ascii -> bool)
| Seq (r1 r2 : regex)
| Alt (r1 r2 : regex)
| Opt (r : regex)
| Grp (n : nat) (r : regex)
| Bol
| Eol.

(** [c+] for a class. *)
Definition Plus (p : ascii -> bool) : regex := Seq (Cls p) (Star p).

(** [(?:l1|l2|...)] over literals. *)
Fixpoint alts (l : string) (ls : list string) : regex :=
  match ls with
  | [] => Lit l
  | l' :: ls' => Alt (Lit l) (alts l' ls')
  end.

(** Captured groups, most recent first. *)
Definition caps : Type := list (nat * string).

Fixpoint lookup (n : nat) (c : caps) : option string :=
  match c with
  | [] => None
  | (k, g) :: c' => if Nat.eqb k n then Some g else lookup n c'
  end.

(** A continuation receives the offset reached, the text that remains
    and the groups captured so far. *)
Definition cont : Type := nat -> string -> caps -> option (nat * caps).

Fixpoint star (p : ascii -> bool) (i : nat) (s : string) (c : caps)
         (k : cont) : option (nat * caps) :=
  match s with
  | EmptyString => k i s c
  | String a s' =>
      if p a then
        match star p (S i) s' c k with
        | Some res => Some res
        | None => k i s c
        end
      else k i s c
  end.

Fixpoint m (r : regex) (i : nat) (s : string) (c : caps) (k : cont)
  : option (nat * caps) :=
  match r with
  | Eps => k i s c
  | Lit l =>
      if prefix l s then k (i + length l) (Py.drop (length l) s) c else None
  | Cls p =>
      match s with
      | EmptyString => None
      | String a s' => if p a then k (S i) s' c else None
      end
  | Star p => star p i s c k
  | Seq r1 r2 => m r1 i s c (fun i' s' c' => m r2 i' s' c' k)
  | Alt r1 r2 =>
      match m r1 i s c k with
      | Some res => Some res
      | None => m r2 i s c k
      end
  | Opt r1 =>
      match m r1 i s c k with
      | Some res => Some res
      | None => k i s c
      end
  | Grp n r1 =>
      m r1 i s c (fun i' s' c' => k i' s' ((n, Py.take (i' - i) s) :: c'))
  | Bol => if Nat.eqb i 0 then k i s c else None
  | Eol =>
      match s with
      | EmptyString => k i s c
      | String a EmptyString => if Ascii.eqb a "010" then k i s c else None
      | _ => None
      end
  end.

(** A match object: start offset, [group(0)] and the numbered groups. *)
Record Match : Type := mkMatch {
  m_start : nat;
  group0 : string;
  m_caps : caps
}.

Definition group (mt : Match) (n : nat) : option string :=
  lookup n (m_caps mt).

Fixpoint search_from (r : regex) (i : nat) (s : string) : option Match :=
  match m r i s [] (fun i' _ c' => Some (i', c')) with
  | Some (i', c') => Some (mkMatch i (Py.take (i' - i) s) c')
  | None =>
      match s with
      | EmptyString => None
      | String _ s' => search_from r (S i) s'
      end
  end.

(** [re.search(r, s)]. *)
Definition search (r : regex) (s : string) : option Match :=
  search_from r 0 s.

End Re.

Declare Scope re_scope.
Delimit Scope re_scope with re.
Notation "r1 ;; r2" := (Re.Seq r1 r2)
  (at level 61, right associativity) : re_scope.

(* ================================================================= *)
(** ** Numbers: [int], [float], decimal rendering *)

Module Num.

Definition digit_val (c : ascii) : Z := Z.of_N (N_of_ascii c) - 48.

Fixpoint digits_val (acc : Z) (s : string) : Z :=
  match s with
  | EmptyString => acc
  | String c s' => digits_val (10 * acc + digit_val c) s'
  end.

Definition digit_char (d : Z) : ascii := ascii_of_N (Z.to_N (d + 48)).

(** Decimal digits of a non-negative integer, by repeated division;
    [fuel] bounds the number of digits. *)
Fixpoint digits_of (fuel : nat) (n : Z) (acc : string) : string :=
  match fuel with
  | O => acc
  | S fuel' =>
      let acc' := String (digit_char (n mod 10)) acc in
      if (n / 10 =? 0)%Z then acc' else digits_of fuel' (n / 10) acc'
  end.

(** [str(n)] for an integer. *)
Definition str_of_Z (n : Z) : string :=
  let a := Z.abs n in
  let ds := digits_of (S (Z.to_nat (Z.log2 a))) a "" in
  if (n <? 0)%Z then "-" ++ ds else ds.

(** The interpreter's default limit on the length of a decimal string
    that [int] converts. *)
Definition int_max_str_digits : nat := 4300.

(** [int(s)] on a string of decimal digits, the only strings the
    parser converts. *)
Definition py_int (s : string) : result Z :=
  if negb (Py.all_chars Py.isdigit s) || Nat.eqb (length s) 0 then
    Err ValueError
  else if Nat.ltb int_max_str_digits (length s) then Err ValueError
  else Ok (digits_val 0 s).

(** The binary64 float nearest to [n / 10^k] (ties to even), one
    rounding of the exact quotient. *)
Definition float_of_decimal (n : Z) (k : nat) : float :=
  match n with
  | Zpos p =>
      SF2Prim (SFdiv prec emax (S754_finite false p 0)
                     (S754_finite false (Z.to_pos (10 ^ Z.of_nat k)) 0))
  | _ => 0%float
  end.

(** The parts of a decimal string before and after its first dot. *)
Fixpoint before_dot (s : string) : string :=
  match s with
  | EmptyString => EmptyString
  | String c s' => if Ascii.eqb c "." then EmptyString else String c (before_dot s')
  end.

Fixpoint after_dot (s : string) : string :=
  match s with
  | EmptyString => EmptyString
  | String c s' => if Ascii.eqb c "." then s' else after_dot s'
  end.

(** [float(s)] on a string over digits and the dot, the strings the
    pattern [[\d.]+] captures: at most one dot and at least one digit,
    else [ValueError]. *)
Definition py_float (s : string) : result float :=
  let ip := before_dot s in
  let fp := after_dot s in
  if Py.all_chars Py.isdigit ip && Py.all_chars Py.isdigit fp
     && negb (Nat.eqb (length ip + length fp) 0)
  then Ok (float_of_decimal (digits_val 0 (ip ++ fp)) (length fp))
  else Err ValueError.

(** Conversion of an [int] operand to [float] in mixed arithmetic:
    rounded to nearest, [OverflowError] beyond the finite range. *)
Definition float_of_Z (n : Z) : result float :=
  match binary_normalize prec emax n 0 false with
  | S754_infinity _ => Err OverflowError
  | sf => Ok (SF2Prim sf)
  end.

(** Thousands separators, for a string of digits. *)
Fixpoint commas (s : string) : string :=
  match s with
  | EmptyString => EmptyString
  | String c s' =>
      String c (if Nat.ltb 0 (length s') && Nat.eqb (length s' mod 3) 0
                then "," ++ commas s' else commas s')
  end.

(** The integer nearest to [m * 2^e], ties to even: the digits that
    the presentation type [.0f] prints. *)
Definition round_half_even (m e : Z) : Z :=
  if (0 <=? e)%Z then (m * 2 ^ e)%Z
  else
    let d := (2 ^ (- e))%Z in
    let q := (m / d)%Z in
    match (2 * (m mod d) ?= d)%Z with
    | Lt => q
    | Gt => (q + 1)%Z
    | Eq => if Z.even q then q else (q + 1)%Z
    end.

(** [format(f, ",.0f")] for a float. *)
Definition format_comma_0f (f : float) : string :=
  match Prim2SF f with
  | S754_nan => "nan"
  | S754_infinity s => (if s then "-" else "") ++ "inf"
  | S754_zero s => (if s then "-" else "") ++ "0"
  | S754_finite s m e =>
      (if s then "-" else "") ++ commas (str_of_Z (round_half_even (Zpos m) e))
  end.

Definition pad2 (n : Z) : string :=
  if (n <? 10)%Z then "0" ++ str_of_Z n else str_of_Z n.

Definition pad4 (n : Z) : string :=
  if (n <? 10)%Z then "000" ++ str_of_Z n
  else if (n <? 100)%Z then "00" ++ str_of_Z n
  else if (n <? 1000)%Z then "0" ++ str_of_Z n
  else str_of_Z n.

End Num.

(* ================================================================= *)
(** ** [datetime.date] *)

Record date : Type := mkDate { year : Z; month : Z; day : Z }.

Module Date.

Definition is_leap (y : Z) : bool :=
  ((y mod 4 =? 0) && (negb (y mod 100 =? 0) || (y mod 400 =? 0)))%Z.

Definition days_in_month (y mo : Z) : Z :=
  if (mo =? 2)%Z then (if is_leap y then 29 else 28)%Z
  else if ((mo =? 4) || (mo =? 6) || (mo =? 9) || (mo =? 11))%Z then 30%Z
  else 31%Z.

(** [d - timedelta(days=1)]; [date.min] has no predecessor. *)
Definition yesterday (d : date) : result date :=
  if (1 <? day d)%Z then Ok (mkDate (year d) (month d) (day d - 1))
  else if (1 <? month d)%Z then
    Ok (mkDate (year d) (month d - 1) (days_in_month (year d) (month d - 1)))
  else if (1 <? year d)%Z then Ok (mkDate (year d - 1) 12 31)
  else Err OverflowError.

(** [d.replace(day=1)]. *)
Definition first_of_month (d : date) : date := mkDate (year d) (month d) 1.

(** [date(d.year, 1, 1)]. *)
Definition first_of_year (d : date) : date := mkDate (year d) 1 1.

(** [d.strftime('%m%d')]. *)
Definition strftime_md (d : date) : string :=
  Num.pad2 (month d) ++ Num.pad2 (day d).

(** [str(d)]. *)
Definition isoformat (d : date) : string :=
  Num.pad4 (year d) ++ "-" ++ Num.pad2 (month d) ++ "-" ++ Num.pad2 (day d).

End Date.

(* ================================================================= *)
(** ** Slot values and parameter dictionaries *)

Inductive value : Type :=
| VNone
| VStr (s : string)
| VInt (n : Z)
| VFloat (f : float)
| VDate (d : date)
| VDict (kv : list (string * value))
| VList (l : list value).

(** A [dict] keeps its keys in insertion order. *)
Definition dict : Type := list (string * value).

Module Dict.

Fixpoint get (k : string) (d : dict) : option value :=
  match d with
  | [] => None
  | (k', v) :: d' => if String.eqb k' k then Some v else get k d'
  end.

(** [d.get(k, default)]. *)
Definition get_default (k : string) (default : value) (d : dict) : value :=
  match get k d with
  | Some v => v
  | None => default
  end.

(** [d.get(k)]. *)
Definition get_none (k : string) (d : dict) : value := get_default k VNone d.

(** [d[k]]. *)
Definition item (k : string) (d : dict) : result value :=
  match get k d with
  | Some v => Ok v
  | None => Err KeyError
  end.

(** [d[k] = v]: an existing key keeps its place. *)
Fixpoint set (k : string) (v : value) (d : dict) : dict :=
  match d with
  | [] => [(k, v)]
  | (k', v') :: d' =>
      if String.eqb k' k then (k, v) :: d' else (k', v') :: set k v d'
  end.

(** [k in d]. *)
Definition has_key (k : string) (d : dict) : bool :=
  match get k d with
  | Some _ => true
  | None => false
  end.

Definition keys (d : dict) : list string := map fst d.

End Dict.

(** Truth value of an object. *)
Definition truthy (v : value) : bool :=
  match v with
  | VNone => false
  | VStr s => negb (String.eqb s "")
  | VInt n => negb (n =? 0)%Z
  | VFloat f => negb (PrimFloat.eqb f 0)
  | VDate _ => true
  | VDict kv => match kv with [] => false | _ => true end
  | VList l => match l with [] => false | _ => true end
  end.

(** [a or b]. *)
Definition py_or (a b : value) : value := if truthy a then a else b.

(** [v == s] for a string literal [s]. *)
Definition str_eqb (v : value) (s : string) : bool :=
  match v with
  | VStr t => String.eqb t s
  | _ => false
  end.

(** [a * b] on numbers; anything else the parser never multiplies. *)
Definition py_mul (a b : value) : result value :=
  match a, b with
  | VInt x, VInt y => Ok (VInt (x * y))
  | VFloat x, VFloat y => Ok (VFloat (x * y))
  | VInt x, VFloat y => fx <- Num.float_of_Z x ;; Ok (VFloat (fx * y))
  | VFloat x, VInt y => fy <- Num.float_of_Z y ;; Ok (VFloat (x * fy))
  | _, _ => Err TypeError
  end.

(** [format(v, ",.0f")]. *)
Definition py_format_comma_0f (v : value) : result string :=
  match v with
  | VInt n => f <- Num.float_of_Z n ;; Ok (Num.format_comma_0f f)
  | VFloat f => Ok (Num.format_comma_0f f)
  | VStr _ => Err ValueError
  | VDate _ => Ok ",.0f"
  | _ => Err TypeError
  end.

(** [len(v)]. *)
Definition py_len (v : value) : result Z :=
  match v with
  | VStr s => Ok (Z.of_nat (length s))
  | VDict kv => Ok (Z.of_nat (List.length kv))
  | VList l => Ok (Z.of_nat (List.length l))
  | _ => Err TypeError
  end.

(* ================================================================= *)
(** ** The patterns of [parser.py] *)

Module Pat.
Import Re.
Local Open Scope re_scope.

Definition ws : regex := Star Py.isspace.       (* \s* *)
Definition ws1 : regex := Plus Py.isspace.      (* \s+ *)
Definition digits : regex := Plus Py.isdigit.   (* \d+ *)
Definition word : regex := Plus Py.isword.      (* \w+ *)

(** [_parse_add], [tag_patterns]. *)

(* r"(?:tag\s*#?\s* )(\w+)" (a blank added before the closing bracket) *)
Definition tag_keyword : regex :=
  Lit "tag" ;; ws ;; Opt (Lit "#") ;; ws ;; Grp 1 word.

(* r"#(\d+)" *)
Definition tag_hash : regex := Lit "#" ;; Grp 1 digits.

(* r"(\w+)\s+tag" *)
Definition tag_word_before : regex := Grp 1 word ;; ws1 ;; Lit "tag".

(* r"(?:number|num|no\.?)\s*(\d+)" *)
Definition tag_number : regex :=
  Alt (Lit "number") (Alt (Lit "num") (Lit "no" ;; Opt (Lit ".")))
  ;; ws ;; Grp 1 digits.

Definition tag_patterns : list regex :=
  [tag_keyword; tag_hash; tag_word_before; tag_number].

(* r"(\w+\s+)?{loc}" *)
Definition location_phrase (loc : string) : regex :=
  Opt (Grp 1 (word ;; ws1)) ;; Lit loc.

(** [_parse_move] and [_parse_event]. *)

(* r"(?:cow|bull|calf|steer|heifer|#)\s*(\d+)" *)
Definition cattle_id : regex :=
  alts "cow" ["bull"; "calf"; "steer"; "heifer"; "#"] ;; ws ;; Grp 1 digits.

(* r"(?:to|in|at)\s+(?:the\s+)?(\w+\s+(?:pasture|field|pen|barn|corral))" *)
Definition loc_named : regex :=
  alts "to" ["in"; "at"] ;; ws1 ;; Opt (Lit "the" ;; ws1)
  ;; Grp 1 (word ;; ws1 ;; alts "pasture" ["field"; "pen"; "barn"; "corral"]).

(* r"(?:to|in|at)\s+(?:the\s+)?(\w+)" *)
Definition loc_word : regex :=
  alts "to" ["in"; "at"] ;; ws1 ;; Opt (Lit "the" ;; ws1) ;; Grp 1 word.

(* r"(north|south|east|west|back|front|main|new)\s+(?:pasture|field)" *)
Definition loc_compass : regex :=
  Grp 1 (alts "north" ["south"; "east"; "west"; "back"; "front"; "main"; "new"])
  ;; ws1 ;; alts "pasture" ["field"].

Definition loc_patterns : list regex := [loc_named; loc_word; loc_compass].

(** [_parse_sale]. *)

(* r"(\d+)\s*(?:head|steers?|heifers?|cows?|bulls?)" *)
Definition head_count : regex :=
  Grp 1 digits ;; ws
  ;; Alt (Lit "head")
       (Alt (Lit "steer" ;; Opt (Lit "s"))
          (Alt (Lit "heifer" ;; Opt (Lit "s"))
             (Alt (Lit "cow" ;; Opt (Lit "s"))
                (Lit "bull" ;; Opt (Lit "s"))))).

(* r"sold\s+(\d+)" *)
Definition sold_count : regex := Lit "sold" ;; ws1 ;; Grp 1 digits.

(* r"\$?([\d.]+)\s*(?:/|\s*per\s* )?(?:lb|pound)" (a blank added before
   the closing bracket) *)
Definition price : regex :=
  Opt (Lit "$") ;; Grp 1 (Plus Py.isdigit_or_dot) ;; ws
  ;; Opt (Alt (Lit "/") (ws ;; Lit "per" ;; ws))
  ;; Alt (Lit "lb") (Lit "pound").

(* r"(\d+)\s*(?:lb|lbs|pounds?)|avg\s+(\d+)|average\s+(\d+)" *)
Definition weight : regex :=
  Alt (Grp 1 digits ;; ws
       ;; Alt (Lit "lb") (Alt (Lit "lbs") (Lit "pound" ;; Opt (Lit "s"))))
    (Alt (Lit "avg" ;; ws1 ;; Grp 2 digits)
       (Lit "average" ;; ws1 ;; Grp 3 digits)).

(** [_parse_query]. *)

(* r"(?:cow|bull|calf|is|#)\s*(\d+)" *)
Definition query_tag : regex :=
  alts "cow" ["bull"; "calf"; "is"; "#"] ;; ws ;; Grp 1 digits.

(** [_infer_command]. *)

(* r"^(\d+)\s+(.+)$" *)
Definition leading_tag : regex :=
  Bol ;; Grp 1 digits ;; ws1 ;; Grp 2 (Plus Py.notnl) ;; Eol.

End Pat.

(** [m.group(n)] as a value ([None] for a group that took no part), and
    as the receiver of a string method. *)
Definition group_val (mt : Re.Match) (n : nat) : value :=
  match Re.group mt n with
  | Some g => VStr g
  | None => VNone
  end.

Definition group_str (mt : Re.Match) (n : nat) : result string :=
  match Re.group mt n with
  | Some g => Ok g
  | None => Err AttributeError
  end.

(** [for pattern in patterns: match = re.search(pattern, s); if match: ...; break] *)
Fixpoint first_search (patterns : list Re.regex) (s : string) : option Re.Match :=
  match patterns with
  | [] => None
  | r :: rest =>
      match Re.search r s with
      | Some mt => Some mt
      | None => first_search rest s
      end
  end.

(* ================================================================= *)
(** ** [CommandType] and [ParsedCommand] *)

Inductive CommandType : Type :=
| ADD_CATTLE
| MOVE
| HEALTH
| SALE
| QUERY
| STATUS
| HELP
| UNKNOWN.

Record ParsedCommand : Type := mkCommand {
  command_type : CommandType;
  params : dict;
  confidence : float;
  raw_text : string
}.

(* ================================================================= *)
(** ** [CommandParser] *)

Module CommandParser.

(** Cattle type synonyms. *)
Definition CATTLE_TYPES : list (string * list string) :=
  [ ("calf", ["calf"; "calve"; "baby"; "newborn"]);
    ("cow", ["cow"; "mama"; "momma"; "mother"; "dam"]);
    ("bull", ["bull"; "sire"; "daddy"]);
    ("steer", ["steer"; "steers"]);
    ("heifer", ["heifer"; "heifers"; "young cow"]) ].

(** Event type patterns. *)
Definition EVENT_TYPES : list (string * list string) :=
  [ ("vet", ["vet"; "veterinarian"; "doctor"; "checkup"; "check up"; "check-up"]);
    ("treatment", ["treat"; "treatment"; "medicine"; "medicate"; "dose"; "shot"; "vaccine"]);
    ("birth", ["born"; "birth"; "calved"; "calving"; "dropped"]);
    ("death", ["died"; "dead"; "death"; "passed"; "lost"]);
    ("note", ["note"; "notes"; "comment"; "observe"; "saw"]) ].

(** Location keywords. *)
Definition LOCATIONS : list string :=
  ["pasture"; "field"; "barn"; "corral"; "pen"; "woods"; "hayfield"].

(** Query keywords. *)
Definition QUERY_WORDS : list string :=
  ["how many"; "count"; "total"; "list"; "show"; "what"; "where"; "status"].

Definition HELP_LITERALS : list string :=
  ["help"; "?"; "commands"; "what can you do"].

Definition STATUS_LITERALS : list string :=
  ["status"; "overview"; "summary"; "stats"].

Definition SALE_WORDS : list string := ["sold"; "sale"; "sell"].

Definition MOVE_WORDS : list string :=
  ["moved"; "move"; "moving"; "went"; "put"; "in the"; "to the"].

Definition ADD_WORDS : list string := ["add"; "new"; "born"; "bought"; "got"].

Definition COLORS : list string :=
  ["red"; "blue"; "green"; "yellow"; "white"; "black"; "orange"].

Definition CONDITIONS : list string :=
  [ "pink eye"; "pinkeye"; "limp"; "limping"; "sick"; "fever";
    "bloat"; "prolapse"; "mastitis"; "foot rot"; "scours"; "pneumonia" ].

Definition SALE_TYPES : list string := ["steer"; "heifer"; "cow"; "bull"; "calf"].

Definition DISTRESS_WORDS : list string := ["sick"; "limping"; "down"; "problem"].

(** [for name, keywords in table.items(): if any(k in lower for k in keywords): ...; break] *)
Definition first_category (table : list (string * list string)) (lower : string)
  : option string :=
  option_map fst (find (fun entry => Py.any_in (snd entry) lower) table).

(** [for w in words: if w in lower: ...; break] *)
Definition first_in (words : list string) (lower : string) : option string :=
  find (fun w => Py.contains w lower) words.

(** [f"NEW-{date.today().strftime('%m%d')}"] *)
Definition new_tag (today : date) : string := "NEW-" ++ Date.strftime_md today.

(** Parse add cattle command. *)
Definition _parse_add (today : date) (text lower : string) : result ParsedCommand :=
  let params : dict :=
    [ ("type", VStr "calf"); ("breed", VStr "Angus"); ("birth_date", VNone);
      ("tag", VNone); ("location", VNone); ("notes", VNone) ] in
  (* Detect cattle type *)
  let params :=
    match first_category CATTLE_TYPES lower with
    | Some ctype => Dict.set "type" (VStr ctype) params
    | None => params
    end in
  (* Extract tag *)
  params <-
    match first_search Pat.tag_patterns lower with
    | Some mt => g <- group_str mt 1 ;; Ok (Dict.set "tag" (VStr (Py.upper g)) params)
    | None => Ok params
    end ;;
  (* Generate tag if not found *)
  let params :=
    if negb (truthy (Dict.get_none "tag" params))
    then Dict.set "tag" (VStr (new_tag today)) params
    else params in
  (* Check for "today" or date *)
  params <-
    (if Py.contains "today" lower then
       Ok (Dict.set "birth_date" (VDate today) params)
     else if Py.contains "yesterday" lower then
       d <- Date.yesterday today ;; Ok (Dict.set "birth_date" (VDate d) params)
     else Ok params) ;;
  (* Extract color for notes *)
  let params :=
    match first_in COLORS lower with
    | Some color =>
        let params :=
          Dict.set "notes"
                   (VStr (if Py.contains "tag" lower then color ++ " tag" else color))
                   params in
        if str_eqb (Dict.get_none "tag" params) (new_tag today)
        then Dict.set "tag" (VStr (Py.upper color ++ "-" ++ Date.strftime_md today)) params
        else params
    | None => params
    end in
  (* Extract location *)
  let params :=
    match first_in LOCATIONS lower with
    | Some loc =>
        match Re.search (Pat.location_phrase loc) lower with
        | Some mt => Dict.set "location" (VStr (Py.title (Re.group0 mt))) params
        | None => params
        end
    | None => params
    end in
  Ok (mkCommand ADD_CATTLE params 0.8 text).

(** Parse move command. *)
Definition _parse_move (text lower : string) : result ParsedCommand :=
  let params : dict := [("tag", VNone); ("location", VNone)] in
  (* Extract tag/ID *)
  let params :=
    match Re.search Pat.cattle_id lower with
    | Some tag_match => Dict.set "tag" (group_val tag_match 1) params
    | None => params
    end in
  (* Extract location *)
  params <-
    match first_search Pat.loc_patterns lower with
    | Some mt => g <- group_str mt 1 ;; Ok (Dict.set "location" (VStr (Py.title g)) params)
    | None => Ok params
    end ;;
  let confidence :=
    if truthy (Dict.get_none "tag" params) && truthy (Dict.get_none "location" params)
    then 0.9%float else 0.6%float in
  Ok (mkCommand MOVE params confidence text).

(** Parse health/event command. *)
Definition _parse_event (today : date) (text lower : string) : result ParsedCommand :=
  let params : dict :=
    [ ("tag", VNone); ("event_type", VStr "note"); ("details", VStr text);
      ("date", VDate today) ] in
  (* Detect event type *)
  let params :=
    match first_category EVENT_TYPES lower with
    | Some etype => Dict.set "event_type" (VStr etype) params
    | None => params
    end in
  (* Extract tag *)
  let params :=
    match Re.search Pat.cattle_id lower with
    | Some tag_match => Dict.set "tag" (group_val tag_match 1) params
    | None => params
    end in
  (* Extract condition/details *)
  let params :=
    match first_in CONDITIONS lower with
    | Some condition => Dict.set "details" (VStr (Py.title condition)) params
    | None => params
    end in
  Ok (mkCommand HEALTH params 0.85 text).

(** [int(v)] and [float(v)] on a matched group. *)
Definition int_of (v : value) : result Z :=
  match v with
  | VStr g => Num.py_int g
  | VInt n => Ok n
  | _ => Err TypeError
  end.

Definition float_of (v : value) : result float :=
  match v with
  | VStr g => Num.py_float g
  | VInt n => Num.float_of_Z n
  | VFloat f => Ok f
  | _ => Err TypeError
  end.

(** Parse sale command. *)
Definition _parse_sale (today : date) (text lower : string) : result ParsedCommand :=
  let params : dict :=
    [ ("head_count", VInt 1); ("price_per_lb", VNone); ("avg_weight", VNone);
      ("cattle_type", VStr "steer"); ("buyer", VNone); ("date", VDate today) ] in
  (* Extract head count *)
  params <-
    match Re.search Pat.head_count lower with
    | Some count_match =>
        n <- int_of (group_val count_match 1) ;;
        Ok (Dict.set "head_count" (VInt n) params)
    | None =>
        match Re.search Pat.sold_count lower with
        | Some count_match =>
            n <- int_of (group_val count_match 1) ;;
            Ok (Dict.set "head_count" (VInt n) params)
        | None => Ok params
        end
    end ;;
  (* Extract price per pound *)
  params <-
    match Re.search Pat.price lower with
    | Some price_match =>
        f <- float_of (group_val price_match 1) ;;
        Ok (Dict.set "price_per_lb" (VFloat f) params)
    | None => Ok params
    end ;;
  (* Extract weight *)
  params <-
    match Re.search Pat.weight lower with
    | Some weight_match =>
        f <- float_of (py_or (py_or (group_val weight_match 1)
                                    (group_val weight_match 2))
                             (group_val weight_match 3)) ;;
        Ok (Dict.set "avg_weight" (VFloat f) params)
    | None => Ok params
    end ;;
  (* Detect cattle type *)
  let params :=
    match first_in SALE_TYPES lower with
    | Some ctype => Dict.set "cattle_type" (VStr ctype) params
    | None => params
    end in
  Ok (mkCommand SALE params 0.9 text).

(** [params["filter"][k] = v] *)
Definition filter_set (k : string) (v : value) (params : dict) : dict :=
  match Dict.get "filter" params with
  | Some (VDict f) => Dict.set "filter" (VDict (Dict.set k v f)) params
  | _ => params
  end.

(** [for ctype in self.CATTLE_TYPES: if ctype in lower: ...; break] *)
Definition filter_by_type (lower : string) (params : dict) : dict :=
  match first_in (map fst CATTLE_TYPES) lower with
  | Some ctype => filter_set "type" (VStr ctype) params
  | None => params
  end.

(** Parse query command. *)
Definition _parse_query (today : date) (text lower : string) : result ParsedCommand :=
  let params : dict := [("query_type", VStr "count"); ("filter", VDict [])] in
  (* Determine query type *)
  let params :=
    if Py.contains "where" lower then
      let params := Dict.set "query_type" (VStr "location") params in
      match Re.search Pat.query_tag lower with
      | Some tag_match => filter_set "tag" (group_val tag_match 1) params
      | None => params
      end
    else if Py.any_in ["how many"; "count"; "total"] lower then
      let params := Dict.set "query_type" (VStr "count") params in
      (* Filter by type *)
      let params := filter_by_type lower params in
      (* Time filter *)
      if Py.contains "this month" lower || Py.contains "month" lower then
        filter_set "since" (VDate (Date.first_of_month today)) params
      else if Py.contains "this year" lower || Py.contains "year" lower
              || Py.contains "ytd" lower then
        filter_set "since" (VDate (Date.first_of_year today)) params
      else if Py.contains "today" lower then
        filter_set "since" (VDate today) params
      else params
    else if Py.contains "list" lower || Py.contains "show" lower
            || Py.contains "all" lower then
      let params := Dict.set "query_type" (VStr "list") params in
      filter_by_type lower params
    else params in
  Ok (mkCommand QUERY params 0.85 text).

(** Try to infer command from context. *)
Definition _infer_command (text lower : string) : result ParsedCommand :=
  let unknown := Ok (mkCommand UNKNOWN [("raw", VStr text)] 0.0 text) in
  (* Check for number that might be a cattle tag *)
  match Re.search Pat.leading_tag text with
  | Some tag_match =>
      let tag := group_val tag_match 1 in
      g <- group_str tag_match 2 ;;
      let rest := Py.lower g in
      if Py.any_in DISTRESS_WORDS rest then
        Ok (mkCommand HEALTH
                      [("tag", tag); ("event_type", VStr "note"); ("details", VStr rest)]
                      0.7 text)
      else unknown
  | None => unknown
  end.

(** The checks of [parse], in the order it makes them. *)
Definition is_help (lower : string) : bool := Py.mem lower HELP_LITERALS.
Definition is_status (lower : string) : bool := Py.mem lower STATUS_LITERALS.
Definition has_query (lower : string) : bool := Py.any_in QUERY_WORDS lower.
Definition has_sale (lower : string) : bool := Py.any_in SALE_WORDS lower.
(* any(any(w in lower for w in words) for words in self.EVENT_TYPES.values()) *)
Definition has_event (lower : string) : bool :=
  existsb (fun words => Py.any_in words lower) (map snd EVENT_TYPES).
Definition has_move (lower : string) : bool := Py.any_in MOVE_WORDS lower.
Definition has_add (lower : string) : bool := Py.any_in ADD_WORDS lower.

(** Parse a text message into a command. *)
Definition parse (today : date) (text : string) : result ParsedCommand :=
  let text := Py.strip text in
  let lower := Py.lower text in
  (* Check for help *)
  if is_help lower then Ok (mkCommand HELP [] 1.0 text)
  (* Check for status/overview *)
  else if is_status lower then Ok (mkCommand STATUS [] 1.0 text)
  (* Check for queries first *)
  else if has_query lower then _parse_query today text lower
  (* Check for sale *)
  else if has_sale lower then _parse_sale today text lower
  (* Check for health/vet event *)
  else if has_event lower then _parse_event today text lower
  (* Check for movement *)
  else if has_move lower then _parse_move text lower
  (* Check for adding cattle *)
  else if has_add lower then _parse_add today text lower
  (* Try to infer from context *)
  else _infer_command text lower.

End CommandParser.

(* ================================================================= *)
(** ** [generate_response] *)

(** Whether [str] and [repr] can render every integer inside [v]: the
    interpreter refuses to convert an [int] of more than
    [Num.int_max_str_digits] decimal digits (the sign is not counted). *)
Fixpoint ints_within_limit (v : value) : bool :=
  match v with
  | VInt n => Nat.leb (length (Num.str_of_Z (Z.abs n))) Num.int_max_str_digits
  | VDict kv => forallb (fun e => ints_within_limit (snd e)) kv
  | VList l => forallb ints_within_limit l
  | _ => true
  end.

(** A value that is not a container and that [str] can render. *)
Definition plain (v : value) : bool :=
  match v with
  | VDict _ | VList _ => false
  | _ => ints_within_limit v
  end.

Section Render.

(** [repr] stands for the interpreter's rendering of floats and of
    containers, which [str] delegates to.  The interpreter's recursion
    limit, which bounds the nesting of the containers that it renders, is
    not modelled: the properties below render no container. *)
Variable repr : value -> string.

(** [str(v)], as an f-string field renders it; [ValueError] for an
    integer beyond the conversion limit. *)
Definition py_str (v : value) : result string :=
  if ints_within_limit v then
    Ok match v with
       | VNone => "None"
       | VStr s => s
       | VInt n => Num.str_of_Z n
       | VDate d => Date.isoformat d
       | _ => repr v
       end
  else Err ValueError.

(** [v.get(k, default)] on a value that should be a mapping. *)
Definition value_get (v : value) (k : string) (default : value) : result value :=
  match v with
  | VDict d => Ok (Dict.get_default k default d)
  | _ => Err AttributeError
  end.

Definition HELP_TEXT : string :=
"FarmOps Commands:
• Add calf born today red tag
• Cow 42 moved to north pasture  
• How many calves this month
• Vet visit cow 15 pink eye
• Sold 5 steers $1.85/lb avg 1100
• Status (for overview)
• Help (this message)".

Definition FALLBACK_TEXT : string :=
  "Command received. Check dashboard for details.".

Definition nl : string := String "010" EmptyString.

(** Generate a human-friendly response.  The fields of an f-string are
    rendered from left to right. *)
Definition generate_response (command : ParsedCommand) (res : dict) : result string :=
  let p := params command in
  match command_type command with
  | HELP => Ok HELP_TEXT
  | STATUS =>
      let stats := res in
      total <- py_str (Dict.get_default "total_head" (VInt 0) stats) ;;
      calves <- py_str (Dict.get_default "calves_ytd" (VInt 0) stats) ;;
      head <- py_str (Dict.get_default "sales_ytd_head" (VInt 0) stats) ;;
      amount <- py_format_comma_0f (Dict.get_default "sales_ytd_amount" (VInt 0) stats) ;;
      Ok ("🐄 Farm Status:" ++ nl
          ++ "Total: " ++ total ++ " head" ++ nl
          ++ "Calves YTD: " ++ calves ++ nl
          ++ "Sales YTD: " ++ head ++ " head ($" ++ amount ++ ")")
  | ADD_CATTLE =>
      ctype <- py_str (Dict.get_default "type" (VStr "cattle") p) ;;
      tag <- py_str (Dict.get_default "tag" (VStr "N/A") res) ;;
      Ok ("✓ Added " ++ ctype ++ " - tag " ++ tag)
  | MOVE =>
      tag <- py_str (Dict.get_none "tag" p) ;;
      location <- py_str (Dict.get_none "location" p) ;;
      Ok ("✓ Moved #" ++ tag ++ " to " ++ location)
  | HEALTH =>
      event_type <- py_str (Dict.get_none "event_type" p) ;;
      tag <- py_str (Dict.get_none "tag" p) ;;
      details <- py_str (Dict.get_none "details" p) ;;
      Ok ("✓ Logged " ++ event_type ++ " for #" ++ tag ++ ": " ++ details)
  | SALE =>
      pw <- py_mul (py_or (Dict.get_default "price_per_lb" (VInt 0) p) (VInt 0))
                   (py_or (Dict.get_default "avg_weight" (VInt 0) p) (VInt 0)) ;;
      amt <- py_mul pw (Dict.get_default "head_count" (VInt 1) p) ;;
      head_count <- py_str (Dict.get_none "head_count" p) ;;
      cattle_type <- py_str (Dict.get_none "cattle_type" p) ;;
      amount <- py_format_comma_0f amt ;;
      Ok ("✓ Recorded sale: " ++ head_count ++ " " ++ cattle_type
          ++ "(s) - $" ++ amount)
  | QUERY =>
      if str_eqb (Dict.get_none "query_type" p) "count" then
        filter_desc <- value_get (Dict.get_default "filter" (VDict []) p)
                                 "type" (VStr "cattle") ;;
        count <- py_str (Dict.get_default "count" (VInt 0) res) ;;
        desc <- py_str filter_desc ;;
        Ok ("Count: " ++ count ++ " " ++ desc)
      else if str_eqb (Dict.get_none "query_type" p) "location" then
        f <- Dict.item "filter" p ;;
        tag <- value_get f "tag" VNone ;;
        tag' <- py_str tag ;;
        location <- py_str (Dict.get_default "location" (VStr "unknown") res) ;;
        Ok ("#" ++ tag' ++ " is at " ++ location)
      else if str_eqb (Dict.get_none "query_type" p) "list" then
        count <- py_len (Dict.get_default "cattle" (VList []) res) ;;
        Ok ("Found " ++ Num.str_of_Z count ++ " cattle. Check dashboard for full list.")
      else Ok FALLBACK_TEXT
  | UNKNOWN => Ok FALLBACK_TEXT
  end.

End Render.

(* ================================================================= *)
(** ** Specification-side definitions *)

(** What one run of the matcher does: [steps r i s c i' s' c'] when [r]
    can consume text from offset [i] (remaining text [s], groups [c]) to
    offset [i'] (remaining text [s'], groups [c']). *)
Module ReSpec.
Import Re.

Inductive steps : regex -> nat -> string -> caps -> nat -> string -> caps -> Prop :=
| st_eps i s c : steps Eps i s c i s c
| st_lit l i s c :
    prefix l s = true ->
    steps (Lit l) i s c (i + length l) (Py.drop (length l) s) c
| st_cls p a i s c :
    p a = true -> steps (Cls p) i (String a s) c (S i) s c
| st_star_stop p i s c : steps (Star p) i s c i s c
| st_star_more p a i s c i' s' :
    p a = true ->
    steps (Star p) (S i) s c i' s' c ->
    steps (Star p) i (String a s) c i' s' c
| st_seq r1 r2 i s c i1 s1 c1 i2 s2 c2 :
    steps r1 i s c i1 s1 c1 ->
    steps r2 i1 s1 c1 i2 s2 c2 ->
    steps (Seq r1 r2) i s c i2 s2 c2
| st_alt_l r1 r2 i s c i' s' c' :
    steps r1 i s c i' s' c' -> steps (Alt r1 r2) i s c i' s' c'
| st_alt_r r1 r2 i s c i' s' c' :
    steps r2 i s c i' s' c' -> steps (Alt r1 r2) i s c i' s' c'
| st_opt_some r i s c i' s' c' :
    steps r i s c i' s' c' -> steps (Opt r) i s c i' s' c'
| st_opt_none r i s c : steps (Opt r) i s c i s c
| st_grp n r i s c i' s' c' :
    steps r i s c i' s' c' ->
    steps (Grp n r) i s c i' s' ((n, Py.take (i' - i) s) :: c')
| st_bol s c : steps Bol 0 s c 0 s c
| st_eol i s c :
    s = EmptyString \/ s = String "010" EmptyString ->
    steps Eol i s c i s c.

(** The least number of characters a match of [r] consumes. *)
Fixpoint min_len (r : regex) : nat :=
  match r with
  | Lit l => length l
  | Cls _ => 1
  | Seq r1 r2 => min_len r1 + min_len r2
  | Alt r1 r2 => Nat.min (min_len r1) (min_len r2)
  | Grp _ r1 => min_len r1
  | _ => 0
  end.

(** Every group of [r] encloses a pattern that consumes something. *)
Fixpoint groups_consume (r : regex) : bool :=
  match r with
  | Seq r1 r2 | Alt r1 r2 => groups_consume r1 && groups_consume r2
  | Opt r1 => groups_consume r1
  | Grp _ r1 => Nat.ltb 0 (min_len r1) && groups_consume r1
  | _ => true
  end.

(** Group [n] takes part in every match of [r]. *)
Fixpoint defines (n : nat) (r : regex) : bool :=
  match r with
  | Seq r1 r2 => defines n r1 || defines n r2
  | Alt r1 r2 => defines n r1 && defines n r2
  | Grp k r1 => Nat.eqb k n || defines n r1
  | _ => false
  end.

Definition all_nonempty (c : caps) : Prop :=
  Forall (fun e => snd e <> EmptyString) c.

End ReSpec.

(** The slots the data model lists for each intent. *)
Definition listed_slots (t : CommandType) : list string :=
  match t with
  | ADD_CATTLE => ["type"; "breed"; "birth_date"; "tag"; "location"; "notes"]
  | MOVE => ["tag"; "location"]
  | HEALTH => ["tag"; "event_type"; "details"; "date"]
  | SALE => ["head_count"; "price_per_lb"; "avg_weight"; "cattle_type"; "buyer"; "date"]
  | QUERY => ["query_type"; "filter"]
  | STATUS | HELP | UNKNOWN => []
  end.

(** Whether a search found a match. *)
Definition is_some {A : Type} (o : option A) : bool :=
  match o with
  | Some _ => true
  | None => false
  end.

(** A slot is resolved when it holds something other than [None]. *)
Definition resolved (v : value) : bool :=
  match v with
  | VNone => false
  | _ => true
  end.


(** The branch of [parse] that produced a command. *)
Inductive parse_branch (today : date) (text lower : string) (cmd : ParsedCommand) : Prop :=
| br_help :
    CommandParser.is_help lower = true ->
    cmd = mkCommand HELP [] 1.0 text ->
    parse_branch today text lower cmd
| br_status :
    CommandParser.is_help lower = false ->
    CommandParser.is_status lower = true ->
    cmd = mkCommand STATUS [] 1.0 text ->
    parse_branch today text lower cmd
| br_query :
    CommandParser.is_help lower = false ->
    CommandParser.is_status lower = false ->
    CommandParser.has_query lower = true ->
    CommandParser._parse_query today text lower = Ok cmd ->
    parse_branch today text lower cmd
| br_sale :
    CommandParser.is_help lower = false ->
    CommandParser.is_status lower = false ->
    CommandParser.has_query lower = false ->
    CommandParser.has_sale lower = true ->
    CommandParser._parse_sale today text lower = Ok cmd ->
    parse_branch today text lower cmd
| br_event :
    CommandParser.is_help lower = false ->
    CommandParser.is_status lower = false ->
    CommandParser.has_query lower = false ->
    CommandParser.has_sale lower = false ->
    CommandParser.has_event lower = true ->
    CommandParser._parse_event today text lower = Ok cmd ->
    parse_branch today text lower cmd
| br_move :
    CommandParser.is_help lower = false ->
    CommandParser.is_status lower = false ->
    CommandParser.has_query lower = false ->
    CommandParser.has_sale lower = false ->
    CommandParser.has_event lower = false ->
    CommandParser.has_move lower = true ->
    CommandParser._parse_move text lower = Ok cmd ->
    parse_branch today text lower cmd
| br_add :
    CommandParser.is_help lower = false ->
    CommandParser.is_status lower = false ->
    CommandParser.has_query lower = false ->
    CommandParser.has_sale lower = false ->
    CommandParser.has_event lower = false ->
    CommandParser.has_move lower = false ->
    CommandParser.has_add lower = true ->
    CommandParser._parse_add today text lower = Ok cmd ->
    parse_branch today text lower cmd
| br_infer :
    CommandParser.is_help lower = false ->
    CommandParser.is_status lower = false ->
    CommandParser.has_query lower = false ->
    CommandParser.has_sale lower = false ->
    CommandParser.has_event lower = false ->
    CommandParser.has_move lower = false ->
    CommandParser.has_add lower = false ->
    CommandParser._infer_command text lower = Ok cmd ->
    parse_branch today text lower cmd.

(** The day used in the worked examples. *)
Definition example_day : date := mkDate 2024 3 5.

(* ================================================================= *)
(** ** [main.py]: the authorized numbers *)

Module Auth.

(** [s.split(sep)] for a one-character separator. *)
Fixpoint split (sep : ascii) (s : string) : list string :=
  match s with
  | EmptyString => [EmptyString]
  | String c s' =>
      if Ascii.eqb c sep then EmptyString :: split sep s'
      else
        match split sep s' with
        | [] => [String c EmptyString]
        | piece :: pieces => String c piece :: pieces
        end
  end.

(** [sep.join(pieces)]. *)
Fixpoint join (sep : ascii) (pieces : list string) : string :=
  match pieces with
  | [] => EmptyString
  | [p] => p
  | p :: rest => p ++ String sep (join sep rest)
  end.

(** [[n.strip() for n in env.split(",") if n.strip()]], where [env] is
    [os.getenv("AUTHORIZED_NUMBERS", "")]. *)
Definition AUTHORIZED_NUMBERS (env : string) : list string :=
  map Py.strip
      (filter (fun n => negb (String.eqb (Py.strip n) EmptyString)) (split "," env)).

(** Check if phone number is authorized. *)
Definition check_authorized (numbers : list string) (phone : string) : bool :=
  match numbers with
  | [] => true  (* No restrictions in dev *)
  | _ => Py.mem phone numbers
  end.

End Auth.

(* ================================================================= *)
(** ** Further specification-side definitions *)

Module ReClass.
Import Re.

(** Every character that [r] consumes is in the class [q]. *)
Fixpoint consumes (q : ascii -> bool) (r : regex) : Prop :=
  match r with
  | Lit l => Py.all_chars q l = true
  | Cls p | Star p => forall a, p a = true -> q a = true
  | Seq r1 r2 | Alt r1 r2 => consumes q r1 /\ consumes q r2
  | Opt r1 | Grp _ r1 => consumes q r1
  | Eps | Bol | Eol => True
  end.

(** Group [n] of [r] encloses a pattern that consumes only characters
    of the class [q]. *)
Fixpoint group_within (n : nat) (q : ascii -> bool) (r : regex) : Prop :=
  match r with
  | Seq r1 r2 | Alt r1 r2 => group_within n q r1 /\ group_within n q r2
  | Opt r1 => group_within n q r1
  | Grp k r1 => (k = n -> consumes q r1) /\ group_within n q r1
  | _ => True
  end.

End ReClass.

(** A command with its [raw_text] replaced. *)
Definition with_raw_text (text : string) (cmd : ParsedCommand) : ParsedCommand :=
  mkCommand (command_type cmd) (params cmd) (confidence cmd) text.

(** The intent that the checks of [parse] select, none when they all
    fail. *)
Definition classify (lower : string) : option CommandType :=
  if CommandParser.is_help lower then Some HELP
  else if CommandParser.is_status lower then Some STATUS
  else if CommandParser.has_query lower then Some QUERY
  else if CommandParser.has_sale lower then Some SALE
  else if CommandParser.has_event lower then Some HEALTH
  else if CommandParser.has_move lower then Some MOVE
  else if CommandParser.has_add lower then Some ADD_CATTLE
  else None.

(* ================================================================= *)
(** * Properties *)

(** ** Strings *)

Module PyFacts.
Import Py.

Lemma lstrip_ws w :
  all_chars isspace w = true -> lstrip w = EmptyString.
Proof.
  induction w as [|a w IH]; simpl; intros H; [reflexivity|].
  apply andb_prop in H as [Ha Hw]. rewrite Ha. auto.
Qed.

Lemma rstrip_ws w :
  all_chars isspace w = true -> rstrip w = EmptyString.
Proof.
  induction w as [|a w IH]; simpl; intros H; [reflexivity|].
  apply andb_prop in H as [Ha Hw]. rewrite (IH Hw), Ha. reflexivity.
Qed.

Lemma lstrip_ws_app w s :
  all_chars isspace w = true -> lstrip (w ++ s) = lstrip s.
Proof.
  induction w as [|a w IH]; simpl; intros H; [reflexivity|].
  apply andb_prop in H as [Ha Hw]. rewrite Ha. auto.
Qed.

Lemma rstrip_app_ws s w :
  all_chars isspace w = true -> rstrip (s ++ w) = rstrip s.
Proof.
  intros Hw. induction s as [|a s IH]; simpl.
  - apply rstrip_ws, Hw.
  - rewrite IH. reflexivity.
Qed.

Lemma strip_app_ws s w :
  all_chars isspace w = true -> strip (s ++ w) = strip s.
Proof.
  intros Hw. unfold strip. induction s as [|a s IH]; simpl.
  - rewrite (lstrip_ws w Hw). reflexivity.
  - destruct (isspace a); [exact IH|].
    change (String a (s ++ w)) with (String a s ++ w).
    apply rstrip_app_ws, Hw.
Qed.

(** Surrounding whitespace does not change what [strip] returns. *)
Lemma strip_pad w1 s w2 :
  all_chars isspace w1 = true -> all_chars isspace w2 = true ->
  strip (w1 ++ s ++ w2) = strip s.
Proof.
  intros H1 H2. unfold strip at 1. rewrite lstrip_ws_app by exact H1.
  apply strip_app_ws, H2.
Qed.

Lemma take_nonempty n s :
  0 < n -> n <= length s -> take n s <> EmptyString.
Proof.
  destruct n as [|n]; [lia|]. destruct s as [|a s]; simpl; [lia|discriminate].
Qed.

Lemma title_from_nonempty b s :
  s <> EmptyString -> title_from b s <> EmptyString.
Proof. destruct s; simpl; [congruence|discriminate]. Qed.

Lemma prefix_length l s : prefix l s = true -> length l <= length s.
Proof.
  revert s. induction l as [|a l IH]; intros [|b s]; simpl; try lia; try discriminate.
  destruct (ascii_dec a b); [|discriminate]. intros H. apply IH in H. lia.
Qed.

Lemma length_drop n s : n <= length s -> length (drop n s) = length s - n.
Proof.
  revert s. induction n as [|n IH]; intros [|a s]; simpl; intros; try lia.
  apply IH. lia.
Qed.

Lemma drop_drop n k s : drop k (drop n s) = drop (n + k) s.
Proof.
  revert s. induction n as [|n IH]; intros s; simpl; [reflexivity|].
  destruct s as [|a s]; [destruct k; reflexivity|apply IH].
Qed.












End PyFacts.

(** ** The matcher *)

Module ReFacts.
Import Re ReSpec.

Lemma star_sound p s : forall i c k res,
  star p i s c k = Some res ->
  exists i' s', steps (Star p) i s c i' s' c /\ k i' s' c = Some res.
Proof.
  induction s as [|a s IH]; simpl; intros i c k res H.
  - exists i, EmptyString. split; [constructor|exact H].
  - destruct (p a) eqn:Hp.
    + destruct (star p (S i) s c k) as [r0|] eqn:E.
      * inversion H; subst r0. apply IH in E as (i' & s' & Hs & Hk).
        exists i', s'. split; [eapply st_star_more; eauto|exact Hk].
      * exists i, (String a s). split; [constructor|exact H].
    + exists i, (String a s). split; [constructor|exact H].
Qed.

(** Every answer of the matcher is a run of the pattern followed by an
    answer of the continuation. *)
Lemma m_sound r : forall i s c k res,
  m r i s c k = Some res ->
  exists i' s' c', steps r i s c i' s' c' /\ k i' s' c' = Some res.
Proof.
  induction r as [|l|p|p|r1 IH1 r2 IH2|r1 IH1 r2 IH2|r1 IH1|n r1 IH1| |];
    simpl; intros i s c k res H.
  - exists i, s, c. split; [constructor|exact H].
  - destruct (prefix l s) eqn:Hl; [|discriminate].
    eexists _, _, _. split; [constructor; exact Hl|exact H].
  - destruct s as [|a s]; [discriminate|].
    destruct (p a) eqn:Hp; [|discriminate].
    eexists _, _, _. split; [constructor; exact Hp|exact H].
  - apply star_sound in H as (i' & s' & Hs & Hk). eauto.
  - apply IH1 in H as (i1 & s1 & c1 & H1 & H).
    apply IH2 in H as (i2 & s2 & c2 & H2 & H).
    eexists _, _, _. split; [eapply st_seq; eauto|exact H].
  - destruct (m r1 i s c k) as [r0|] eqn:E.
    + inversion H; subst r0. apply IH1 in E as (i' & s' & c' & Hs & Hk).
      eexists _, _, _. split; [apply st_alt_l; eauto|exact Hk].
    + apply IH2 in H as (i' & s' & c' & Hs & Hk).
      eexists _, _, _. split; [apply st_alt_r; eauto|exact Hk].
  - destruct (m r1 i s c k) as [r0|] eqn:E.
    + inversion H; subst r0. apply IH1 in E as (i' & s' & c' & Hs & Hk).
      eexists _, _, _. split; [apply st_opt_some; eauto|exact Hk].
    + eexists _, _, _. split; [apply st_opt_none|exact H].
  - apply IH1 in H as (i' & s' & c' & Hs & Hk).
    eexists _, _, _. split; [apply st_grp; eauto|exact Hk].
  - destruct (Nat.eqb i 0) eqn:Hi; [|discriminate].
    apply Nat.eqb_eq in Hi. subst i.
    eexists _, _, _. split; [constructor|exact H].
  - destruct s as [|a [|b s]].
    + eexists _, _, _. split; [constructor; left; reflexivity|exact H].
    + destruct (Ascii.eqb a "010") eqn:Ha; [|discriminate].
      apply Ascii.eqb_eq in Ha. subst a.
      eexists _, _, _. split; [constructor; right; reflexivity|exact H].
    + discriminate.
Qed.

Lemma search_from_sound r s : forall i mt,
  search_from r i s = Some mt ->
  exists j i' s',
    i <= j /\ m_start mt = j /\
    steps r j (Py.drop (j - i) s) [] i' s' (m_caps mt) /\
    group0 mt = Py.take (i' - j) (Py.drop (j - i) s).
Proof.
  induction s as [|a s IH]; intros i mt; simpl.
  - destruct (m r i EmptyString [] _) as [[i' c']|] eqn:E; [|discriminate].
    intros H. inversion H; subst mt. simpl.
    apply m_sound in E as (i2 & s2 & c2 & Hs & Hk). inversion Hk; subst.
    exists i, i', s2. rewrite Nat.sub_diag. auto.
  - destruct (m r i (String a s) [] _) as [[i' c']|] eqn:E.
    + intros H. inversion H; subst mt. simpl.
      apply m_sound in E as (i2 & s2 & c2 & Hs & Hk). inversion Hk; subst.
      exists i, i', s2. rewrite Nat.sub_diag. auto.
    + intros H. apply IH in H as (j & i' & s' & Hle & Hst & Hs & Hg).
      exists j, i', s'.
      replace (j - i) with (S (j - S i)) by lia. cbn [Py.drop].
      repeat split; auto; lia.
Qed.

(** A run advances through the text by at least [min_len]. *)
Lemma steps_advance r i s c i' s' c' :
  steps r i s c i' s' c' ->
  i + min_len r <= i' /\ i' - i <= length s /\ s' = Py.drop (i' - i) s.
Proof.
  induction 1; cbn [min_len].
  - rewrite Nat.sub_diag. repeat split; try lia; reflexivity.
  - apply PyFacts.prefix_length in H.
    replace (i + length l - i) with (length l) by lia.
    repeat split; try lia; reflexivity.
  - replace (S i - i) with 1 by lia. cbn [length].
    repeat split; try lia; reflexivity.
  - rewrite Nat.sub_diag. repeat split; try lia; reflexivity.
  - destruct IHsteps as (Ha & Hb & Hc).
    replace (i' - i) with (S (i' - S i)) by lia. cbn [length Py.drop].
    repeat split; try lia. exact Hc.
  - destruct IHsteps1 as (Ha1 & Hb1 & Hc1). destruct IHsteps2 as (Ha2 & Hb2 & Hc2).
    subst s1. rewrite PyFacts.length_drop in Hb2 by lia.
    repeat split; try lia.
    rewrite Hc2, PyFacts.drop_drop. f_equal. lia.
  - destruct IHsteps as (Ha & Hb & Hc). repeat split; try lia. exact Hc.
  - destruct IHsteps as (Ha & Hb & Hc). repeat split; try lia. exact Hc.
  - destruct IHsteps as (Ha & Hb & Hc). repeat split; try lia. exact Hc.
  - rewrite Nat.sub_diag. repeat split; try lia; reflexivity.
  - exact IHsteps.
  - repeat split; try lia; reflexivity.
  - rewrite Nat.sub_diag. repeat split; try lia; reflexivity.
Qed.

Lemma steps_nonempty r i s c i' s' c' :
  steps r i s c i' s' c' ->
  groups_consume r = true -> all_nonempty c -> all_nonempty c'.
Proof.
  unfold all_nonempty.
  induction 1; simpl; intros Hg Hc; auto.
  - apply andb_prop in Hg as [Hg1 Hg2]. auto.
  - apply andb_prop in Hg as [Hg1 Hg2]. auto.
  - apply andb_prop in Hg as [Hg1 Hg2]. auto.
  - apply andb_prop in Hg as [Hg1 Hg2]. apply Nat.ltb_lt in Hg1.
    apply steps_advance in H as Hadv. destruct Hadv as (Ha & Hb & _).
    constructor; [|auto]. simpl. apply PyFacts.take_nonempty; lia.
Qed.

Lemma steps_defines n r i s c i' s' c' :
  steps r i s c i' s' c' ->
  lookup n c <> None \/ defines n r = true ->
  lookup n c' <> None.
Proof.
  induction 1; simpl; intros [Hc|Hd]; try discriminate; auto.
  - apply orb_prop in Hd as [Hd|Hd]; auto.
  - apply andb_prop in Hd as [Hd1 Hd2]. auto.
  - apply andb_prop in Hd as [Hd1 Hd2]. auto.
  - destruct (Nat.eqb n0 n); [discriminate|auto].
  - destruct (Nat.eqb n0 n) eqn:E; [discriminate|].
    simpl in Hd. auto.
Qed.

Lemma lookup_nonempty n c g :
  all_nonempty c -> lookup n c = Some g -> g <> EmptyString.
Proof.
  unfold all_nonempty. induction 1 as [|[k h] c Hh Hc IH]; simpl; [discriminate|].
  destruct (Nat.eqb k n); [|exact IH].
  intros E. inversion E; subst. exact Hh.
Qed.

(** A group that takes part in every match, in a pattern whose groups
    all consume text, is never empty and never [None]. *)
Lemma search_group r n s mt :
  groups_consume r = true -> defines n r = true ->
  search r s = Some mt ->
  exists g, group mt n = Some g /\ g <> EmptyString.
Proof.
  intros Hg Hd Hs. unfold search in Hs.
  apply search_from_sound in Hs as (j & i' & s' & _ & _ & Hst & _).
  unfold group.
  destruct (lookup n (m_caps mt)) as [g|] eqn:E.
  - exists g. split; [reflexivity|].
    eapply lookup_nonempty; [|exact E].
    eapply steps_nonempty; [exact Hst|exact Hg|constructor].
  - exfalso. eapply steps_defines; [exact Hst|right; exact Hd|exact E].
Qed.

(** What a repetition of a class consumes. *)
Lemma steps_star p i s c i' s' c' :
  steps (Star p) i s c i' s' c' ->
  c' = c /\
  exists w, s = w ++ s' /\ Py.all_chars p w = true /\ i' = i + length w.
Proof.
  intros H. remember (Star p) as r eqn:Er.
  induction H; inversion Er; subst.
  - split; [reflexivity|]. exists EmptyString. repeat split. cbn. lia.
  - destruct (IHsteps eq_refl) as (_ & w & -> & Hw & ->).
    split; [reflexivity|]. exists (String a w). cbn.
    rewrite H, Hw. repeat split. lia.
Qed.

Lemma steps_plus p i s c i' s' c' :
  steps (Plus p) i s c i' s' c' ->
  c' = c /\
  exists w, s = w ++ s' /\ Py.all_chars p w = true /\ w <> EmptyString /\
            i' = i + length w.
Proof.
  unfold Plus. intros H. inversion H as [| | | | |? ? ? ? ? ? ? ? ? ? ? H1 H2| | | | | | |]; subst.
  inversion H1; subst.
  apply steps_star in H2 as (-> & w & -> & Hw & ->).
  split; [reflexivity|]. exists (String a w). cbn.
  match goal with Hp : p a = true |- _ => rewrite Hp end.
  rewrite Hw. repeat split; [discriminate|lia].
Qed.

Lemma take_app w s : Py.take (length w) (w ++ s) = w.
Proof. induction w as [|a w IH]; cbn; [destruct s; reflexivity|now rewrite IH]. Qed.

Lemma first_search_in ps s mt :
  first_search ps s = Some mt ->
  exists r, In r ps /\ search r s = Some mt.
Proof.
  induction ps as [|r ps IH]; simpl; [discriminate|].
  destruct (search r s) as [m0|] eqn:E.
  - intros H. inversion H; subst. exists r. auto.
  - intros H. apply IH in H as (r' & Hin & Hs). exists r'. auto.
Qed.

(** What a match of the fallback pattern says about the text: digits,
    then whitespace, then a remainder without a line break, up to the end
    of the text or to a final line break. *)
Lemma leading_tag_sound text mt :
  Re.search Pat.leading_tag text = Some mt ->
  exists digits blank rest tail,
    text = digits ++ blank ++ rest ++ tail /\
    (tail = EmptyString \/ tail = String "010" EmptyString) /\
    Py.all_chars Py.isdigit digits = true /\ digits <> EmptyString /\
    Py.all_chars Py.isspace blank = true /\ blank <> EmptyString /\
    Py.all_chars Py.notnl rest = true /\ rest <> EmptyString /\
    Re.group mt 1 = Some digits /\ Re.group mt 2 = Some rest.
Proof.
  intros H. unfold Re.search in H.
  apply search_from_sound in H as (j & i' & s' & _ & _ & Hst & _).
  rewrite Nat.sub_0_r in Hst. unfold Re.group.
  remember (Re.m_caps mt) as cs eqn:Ecs. clear Ecs.
  unfold Pat.leading_tag, Pat.digits, Pat.ws1 in Hst.
  repeat match goal with
         | H : steps (Plus _) _ _ _ _ _ _ |- _ =>
             apply steps_plus in H as (-> & ? & -> & ? & ? & ->)
         | H : steps (Seq _ _) _ _ _ _ _ _ |- _ => inversion H; subst; clear H
         | H : steps (Grp _ _) _ _ _ _ _ _ |- _ => inversion H; subst; clear H
         | H : steps Bol _ _ _ _ _ _ |- _ => inversion H; subst; clear H
         | H : steps Eol _ _ _ _ _ _ |- _ => inversion H; subst; clear H
         end.
  match goal with
  | E : Py.drop 0 text = ?d ++ ?w ++ ?r ++ ?t |- _ =>
      cbn [Py.drop] in E; exists d, w, r, t;
      replace (0 + length d - 0) with (length d) by lia;
      replace (0 + length d + length w + length r - (0 + length d + length w))
        with (length r) by lia;
      rewrite !take_app; cbn [lookup Nat.eqb]
  end.
  assert (Hdrop : Py.drop 0 text = text) by (destruct text; reflexivity).
  repeat split; auto; congruence.
Qed.






End ReFacts.

(** ** The extractors, one by one *)

Module ParserFacts.
Import CommandParser.

#[local] Opaque Py.contains Py.any_in Re.search first_search Py.title Py.upper
  Py.lower Date.strftime_md Date.yesterday Num.py_int Num.py_float
  Num.float_of_Z String.append first_in first_category.

(** Case analysis on a decision of the code whose scrutinee holds no
    further decision. *)
Ltac split_on x :=
  lazymatch x with
  | context [match _ with _ => _ end] => fail
  | _ => destruct x eqn:?
  end.

Ltac step_parser :=
  match goal with
  | H : Ok _ = Ok _ |- _ => inversion H; subst; clear H
  | H : Err _ = Ok _ |- _ => discriminate H
  | H : context [match ?x with _ => _ end] |- _ => split_on x
  | |- context [match ?x with _ => _ end] => split_on x
  end.

Ltac run_parser := repeat (unfold bind in *; cbn in *; step_parser); cbn in *.

(** [parse] returns what exactly one branch of its cascade returns. *)
Lemma parse_inv today s cmd :
  parse today s = Ok cmd ->
  parse_branch today (Py.strip s) (Py.lower (Py.strip s)) cmd.
Proof.
  unfold parse. cbv zeta.
  destruct (is_help _) eqn:E1.
  { intros H. inversion H. apply br_help; auto. }
  destruct (is_status _) eqn:E2.
  { intros H. inversion H. apply br_status; auto. }
  destruct (has_query _) eqn:E3.
  { intros H. apply br_query; auto. }
  destruct (has_sale _) eqn:E4.
  { intros H. apply br_sale; auto. }
  destruct (has_event _) eqn:E5.
  { intros H. apply br_event; auto. }
  destruct (has_move _) eqn:E6.
  { intros H. apply br_move; auto. }
  destruct (has_add _) eqn:E7.
  { intros H. apply br_add; auto. }
  intros H. apply br_infer; auto.
Qed.

Lemma parse_query_shape today text lower cmd :
  _parse_query today text lower = Ok cmd ->
  command_type cmd = QUERY /\ confidence cmd = 0.85%float /\
  raw_text cmd = text /\ Dict.keys (params cmd) = listed_slots QUERY.
Proof.
  unfold _parse_query, filter_by_type, filter_set. intros H.
  run_parser; repeat split; reflexivity.
Qed.

Lemma parse_sale_shape today text lower cmd :
  _parse_sale today text lower = Ok cmd ->
  command_type cmd = SALE /\ confidence cmd = 0.9%float /\
  raw_text cmd = text /\ Dict.keys (params cmd) = listed_slots SALE.
Proof.
  unfold _parse_sale. intros H.
  run_parser; repeat split; reflexivity.
Qed.

Lemma parse_event_shape today text lower cmd :
  _parse_event today text lower = Ok cmd ->
  command_type cmd = HEALTH /\ confidence cmd = 0.85%float /\
  raw_text cmd = text /\ Dict.keys (params cmd) = listed_slots HEALTH /\
  Dict.get "date" (params cmd) = Some (VDate today).
Proof.
  unfold _parse_event. intros H.
  run_parser; repeat split; reflexivity.
Qed.

Lemma parse_add_shape today text lower cmd :
  _parse_add today text lower = Ok cmd ->
  command_type cmd = ADD_CATTLE /\ confidence cmd = 0.8%float /\
  raw_text cmd = text /\ Dict.keys (params cmd) = listed_slots ADD_CATTLE.
Proof.
  unfold _parse_add. intros H.
  run_parser; repeat split; reflexivity.
Qed.

Lemma parse_infer_shape text lower cmd :
  _infer_command text lower = Ok cmd ->
  raw_text cmd = text /\
  ((command_type cmd = HEALTH /\ confidence cmd = 0.7%float /\
    Dict.keys (params cmd) = ["tag"; "event_type"; "details"]) \/
   cmd = mkCommand UNKNOWN [("raw", VStr text)] 0.0 text).
Proof.
  unfold _infer_command. intros H.
  run_parser; split; try reflexivity; auto.
Qed.

Lemma cattle_id_group lower mt :
  Re.search Pat.cattle_id lower = Some mt ->
  exists g, Re.group mt 1 = Some g /\ g <> EmptyString.
Proof. apply ReFacts.search_group; reflexivity. Qed.

Lemma loc_group lower mt :
  first_search Pat.loc_patterns lower = Some mt ->
  exists g, Re.group mt 1 = Some g /\ g <> EmptyString.
Proof.
  intros H. apply ReFacts.first_search_in in H as (r & Hin & Hs).
  destruct Hin as [<-|[<-|[<-|[]]]];
    (refine (ReFacts.search_group _ 1 _ _ _ _ Hs); reflexivity).
Qed.

Lemma leading_tag_groups text mt :
  Re.search Pat.leading_tag text = Some mt ->
  exists digits rest,
    Re.group mt 1 = Some digits /\ Re.group mt 2 = Some rest /\
    digits <> EmptyString /\ rest <> EmptyString.
Proof.
  intros H.
  destruct (ReFacts.search_group Pat.leading_tag 1 text mt) as (d & Hd & Hd');
    [reflexivity|reflexivity|exact H|].
  destruct (ReFacts.search_group Pat.leading_tag 2 text mt) as (r & Hr & Hr');
    [reflexivity|reflexivity|exact H|].
  exists d, r. auto.
Qed.

(** [_parse_move] always returns, and its confidence follows the two slots. *)
Lemma parse_move_spec text lower :
  exists tag loc,
    _parse_move text lower =
      Ok (mkCommand MOVE [("tag", tag); ("location", loc)]
                    (if resolved tag && resolved loc then 0.9 else 0.6) text) /\
    resolved tag = is_some (Re.search Pat.cattle_id lower) /\
    resolved loc = is_some (first_search Pat.loc_patterns lower).
Proof.
  unfold _parse_move.
  destruct (Re.search Pat.cattle_id lower) as [mt|] eqn:Et;
    destruct (first_search Pat.loc_patterns lower) as [ml|] eqn:El.
  - apply cattle_id_group in Et as (g & Hg & Hg').
    apply loc_group in El as (h & Hh & Hh').
    unfold group_val, group_str. rewrite Hg, Hh. cbn.
    exists (VStr g), (VStr (Py.title h)). cbn [resolved andb].
    rewrite (proj2 (String.eqb_neq g EmptyString) Hg').
    rewrite (proj2 (String.eqb_neq (Py.title h) EmptyString)
                   (PyFacts.title_from_nonempty false h Hh')).
    repeat split.
  - apply cattle_id_group in Et as (g & Hg & Hg').
    unfold group_val. rewrite Hg. cbn.
    exists (VStr g), VNone. rewrite andb_false_r. repeat split.
  - apply loc_group in El as (h & Hh & Hh').
    unfold group_str. rewrite Hh. cbn.
    exists VNone, (VStr (Py.title h)). repeat split.
  - cbn. exists VNone, VNone. repeat split.
Qed.

(** The intent and the confidence that each branch of [parse] can return. *)
Lemma parse_outcomes today s cmd :
  parse today s = Ok cmd ->
  raw_text cmd = Py.strip s /\
  In (command_type cmd, confidence cmd)
     [ (HELP, 1.0%float); (STATUS, 1.0%float); (QUERY, 0.85%float);
       (SALE, 0.9%float); (HEALTH, 0.85%float); (MOVE, 0.9%float);
       (MOVE, 0.6%float); (ADD_CATTLE, 0.8%float); (HEALTH, 0.7%float);
       (UNKNOWN, 0.0%float) ].
Proof.
  intros H. apply parse_inv in H.
  destruct H as [? ->|? ? ->|? ? ? H|? ? ? ? H|? ? ? ? ? H|? ? ? ? ? ? H
                 |? ? ? ? ? ? ? H|? ? ? ? ? ? ? H].
  - cbn. auto.
  - cbn. auto.
  - apply parse_query_shape in H as (-> & -> & -> & _). cbn. auto.
  - apply parse_sale_shape in H as (-> & -> & -> & _). cbn. auto 10.
  - apply parse_event_shape in H as (-> & -> & -> & _). cbn. auto 10.
  - destruct (parse_move_spec (Py.strip s) (Py.lower (Py.strip s)))
      as (tag & loc & Hm & _ & _).
    rewrite Hm in H. inversion H; subst cmd. cbn [raw_text command_type confidence].
    split; [reflexivity|]. destruct (resolved tag && resolved loc); cbn; auto 10.
  - apply parse_add_shape in H as (-> & -> & -> & _). cbn. auto 10.
  - apply parse_infer_shape in H as (-> & [(-> & -> & _)| ->]); cbn; auto 12.
Qed.

(** Without a condition keyword the details of a Health command stay
    at their default, the text that was parsed. *)
Lemma parse_event_details today text lower cmd :
  _parse_event today text lower = Ok cmd ->
  first_in CONDITIONS lower = None ->
  Dict.get "details" (params cmd) = Some (VStr text).
Proof.
  unfold _parse_event. intros H Hc. rewrite Hc in H.
  run_parser; reflexivity.
Qed.

Lemma keys_has_key d k :
  In k (Dict.keys d) -> Dict.has_key k d = true.
Proof.
  unfold Dict.has_key, Dict.keys.
  induction d as [|[k' v] d IH]; cbn [map In Dict.get fst]; [contradiction|].
  intros [->|Hin].
  - rewrite String.eqb_refl. reflexivity.
  - destruct (String.eqb k' k); [reflexivity|exact (IH Hin)].
Qed.

Lemma sold_is_sale lower :
  Py.contains "sold" lower = true -> has_sale lower = true.
Proof.
  intros H. unfold has_sale, SALE_WORDS.
  change (Py.any_in ("sold" :: ["sale"; "sell"]) lower)
    with (Py.contains "sold" lower || Py.any_in ["sale"; "sell"] lower).
  rewrite H. reflexivity.
Qed.

End ParserFacts.

(* ================================================================= *)
(** * The properties the specification states *)

(** C1.  The confidence of the command that [parse] returns is 0 exactly
    when its intent is Unknown: an Unknown command has confidence 0.0, and
    a command with any other intent has a confidence strictly above 0. *)
Theorem confidence_zero_iff_unknown (today : date) (s : string) (cmd : ParsedCommand) :
  CommandParser.parse today s = Ok cmd ->
  (PrimFloat.eqb (confidence cmd) 0 = true <-> command_type cmd = UNKNOWN) /\
  (command_type cmd = UNKNOWN -> confidence cmd = 0%float) /\
  (command_type cmd <> UNKNOWN -> PrimFloat.ltb 0 (confidence cmd) = true).
Proof.
  intros H. apply ParserFacts.parse_outcomes in H as [_ H].
  cbn [In] in H.
  repeat (destruct H as [H|H]; [inversion H as [[Ht Hc]]; clear H|]);
    try contradiction;
    (split; [split|split]; intros E;
     first [ reflexivity
           | discriminate E
           | vm_compute in E; discriminate E
           | exfalso; apply E; reflexivity ]).
Qed.


Lemma confidence_zero_iff_unknown_witness :
  (PrimFloat.eqb 0 0 = true <-> UNKNOWN = UNKNOWN) /\
  (UNKNOWN = UNKNOWN -> 0%float = 0%float) /\
  (UNKNOWN <> UNKNOWN -> PrimFloat.ltb 0 0 = true).
Proof.
  exact (confidence_zero_iff_unknown example_day "xyz nonsense"
           (mkCommand UNKNOWN [("raw", VStr "xyz nonsense")] 0 "xyz nonsense")
           eq_refl).
Defined.

(** Which extractor produced a command can be read off its intent. *)
Module Dispatch.
Import CommandParser ParserFacts.

Ltac wrong_intent Ht :=
  match goal with
  | H : _parse_query _ _ _ = Ok _ |- _ =>
      apply parse_query_shape in H as (Hx & _); rewrite Hx in Ht; discriminate Ht
  | H : _parse_sale _ _ _ = Ok _ |- _ =>
      apply parse_sale_shape in H as (Hx & _); rewrite Hx in Ht; discriminate Ht
  | H : _parse_event _ _ _ = Ok _ |- _ =>
      apply parse_event_shape in H as (Hx & _); rewrite Hx in Ht; discriminate Ht
  | H : _parse_add _ _ _ = Ok _ |- _ =>
      apply parse_add_shape in H as (Hx & _); rewrite Hx in Ht; discriminate Ht
  | H : _parse_move ?t ?l = Ok _ |- _ =>
      destruct (parse_move_spec t l) as (? & ? & Hx & _ & _); rewrite Hx in H;
      inversion H; subst; discriminate Ht
  | H : _infer_command _ _ = Ok _ |- _ =>
      apply parse_infer_shape in H as (_ & [(Hx & _)|Hx]); rewrite Hx in Ht;
      discriminate Ht
  | H : _ = mkCommand _ _ _ _ |- _ => rewrite H in Ht; discriminate Ht
  end.

Lemma move_from_extractor today s cmd :
  parse today s = Ok cmd -> command_type cmd = MOVE ->
  _parse_move (Py.strip s) (Py.lower (Py.strip s)) = Ok cmd.
Proof.
  intros H Ht. apply parse_inv in H. destruct H; try wrong_intent Ht. assumption.
Qed.

Lemma query_from_extractor today s cmd :
  parse today s = Ok cmd -> command_type cmd = QUERY ->
  _parse_query today (Py.strip s) (Py.lower (Py.strip s)) = Ok cmd.
Proof.
  intros H Ht. apply parse_inv in H. destruct H; try wrong_intent Ht. assumption.
Qed.

Lemma any_in_cons w ws s :
  Py.any_in (w :: ws) s = Py.contains w s || Py.any_in ws s.
Proof. reflexivity. Qed.

Lemma any_in_nil s : Py.any_in [] s = false.
Proof. reflexivity. Qed.

End Dispatch.

(** [parse] does not always return: the price pattern captures a lone
    dot, which [float] rejects. *)
Example parse_can_raise (today : date) :
  CommandParser.parse today "sold . lb" = Err ValueError.
Proof. reflexivity. Qed.

(** C7.  A Move command has confidence 0.9 when both its tag slot and its
    location slot are resolved (not [None]), and 0.6 when one of them or
    both are not.  On ASCII text the tag is resolved exactly when the
    numeric id pattern occurs in the text, the location exactly when a
    location pattern does. *)
Theorem move_confidence (today : date) (s : string) (cmd : ParsedCommand) :
  CommandParser.parse today s = Ok cmd ->
  command_type cmd = MOVE ->
  exists tag loc,
    params cmd = [("tag", tag); ("location", loc)] /\
    (resolved tag = true /\ resolved loc = true -> confidence cmd = 0.9%float) /\
    (resolved tag = false \/ resolved loc = false -> confidence cmd = 0.6%float) /\
    (Py.isascii s = true ->
     resolved tag = is_some (Re.search Pat.cattle_id (Py.lower (Py.strip s))) /\
     resolved loc = is_some (first_search Pat.loc_patterns (Py.lower (Py.strip s)))).
Proof.
  intros H Ht. apply Dispatch.move_from_extractor in H; [|exact Ht].
  destruct (ParserFacts.parse_move_spec (Py.strip s) (Py.lower (Py.strip s)))
    as (tag & loc & Hm & Htag & Hloc).
  rewrite Hm in H. inversion H; subst cmd. clear H Hm Ht.
  exists tag, loc. cbn [params confidence].
  split; [reflexivity|]. split; [|split].
  - intros [-> ->]. reflexivity.
  - intros [-> | ->]; [|rewrite andb_false_r]; reflexivity.
  - intros _. split; [exact Htag|exact Hloc].
Qed.

Lemma move_confidence_witness :
  exists tag loc,
    [("tag", VStr "42"); ("location", VStr "North Pasture")]
      = [("tag", tag); ("location", loc)] /\
    (resolved tag = true /\ resolved loc = true -> 0.9%float = 0.9%float) /\
    (resolved tag = false \/ resolved loc = false -> 0.9%float = 0.6%float) /\
    (Py.isascii "cow 42 moved to north pasture" = true ->
     resolved tag
     = is_some (Re.search Pat.cattle_id
                          (Py.lower (Py.strip "cow 42 moved to north pasture"))) /\
     resolved loc
     = is_some (first_search Pat.loc_patterns
                             (Py.lower (Py.strip "cow 42 moved to north pasture")))).
Proof.
  exact (move_confidence example_day "cow 42 moved to north pasture"
           (mkCommand MOVE [("tag", VStr "42"); ("location", VStr "North Pasture")]
                      0.9 "cow 42 moved to north pasture")
           eq_refl eq_refl).
Defined.

(** A location alone, or nothing at all, gives 0.6. *)
Example move_location_only (today : date) :
  CommandParser.parse today "moved them to the barn"
  = Ok (mkCommand MOVE [("tag", VNone); ("location", VStr "The Barn")] 0.6
                  "moved them to the barn").
Proof. reflexivity. Qed.

(** C9.  An ASCII input classified as Query (neither a Help nor a Status
    literal, with a query trigger) whose trimmed, lower-cased text contains
    none of "where", "how many", "count", "total", "list", "show", "all"
    is returned as a Query with query_type "count" and an empty filter
    mapping; and any Query command that [parse] returns for such a text is
    that one. *)
Theorem query_default_count (today : date) (s : string) :
  Py.isascii s = true ->
  Py.any_in ["where"; "how many"; "count"; "total"; "list"; "show"; "all"]
            (Py.lower (Py.strip s)) = false ->
  (CommandParser.is_help (Py.lower (Py.strip s)) = false ->
   CommandParser.is_status (Py.lower (Py.strip s)) = false ->
   CommandParser.has_query (Py.lower (Py.strip s)) = true ->
   CommandParser.parse today s
   = Ok (mkCommand QUERY [("query_type", VStr "count"); ("filter", VDict [])]
                   0.85 (Py.strip s))) /\
  (forall cmd,
      CommandParser.parse today s = Ok cmd ->
      command_type cmd = QUERY ->
      cmd = mkCommand QUERY [("query_type", VStr "count"); ("filter", VDict [])]
                      0.85 (Py.strip s)).
Proof.
  intros _ Hn.
  assert (Hq : CommandParser._parse_query today (Py.strip s) (Py.lower (Py.strip s))
               = Ok (mkCommand QUERY [("query_type", VStr "count"); ("filter", VDict [])]
                               0.85 (Py.strip s))).
  { repeat rewrite Dispatch.any_in_cons in Hn.
    repeat (apply orb_false_elim in Hn as [? Hn]).
    unfold CommandParser._parse_query.
    repeat rewrite Dispatch.any_in_cons. rewrite Dispatch.any_in_nil.
    repeat match goal with
           | E : Py.contains _ _ = false |- _ => rewrite E; clear E
           end.
    reflexivity. }
  split.
  - intros E1 E2 E3. unfold CommandParser.parse. cbv zeta.
    rewrite E1, E2, E3. exact Hq.
  - intros cmd H Ht. apply Dispatch.query_from_extractor in H; [|exact Ht].
    rewrite Hq in H. inversion H. reflexivity.
Qed.

Lemma query_default_count_witness :
  (CommandParser.is_help (Py.lower (Py.strip "  herd status please ")) = false ->
   CommandParser.is_status (Py.lower (Py.strip "  herd status please ")) = false ->
   CommandParser.has_query (Py.lower (Py.strip "  herd status please ")) = true ->
   CommandParser.parse example_day "  herd status please "
   = Ok (mkCommand QUERY [("query_type", VStr "count"); ("filter", VDict [])]
                   0.85 (Py.strip "  herd status please "))) /\
  (forall cmd,
      CommandParser.parse example_day "  herd status please " = Ok cmd ->
      command_type cmd = QUERY ->
      cmd = mkCommand QUERY [("query_type", VStr "count"); ("filter", VDict [])]
                      0.85 (Py.strip "  herd status please ")).
Proof.
  exact (query_default_count example_day "  herd status please " eq_refl eq_refl).
Defined.

(** The same default for an input whose only trigger is "what". *)
Example query_what_only (today : date) :
  CommandParser.parse today "what about bessie"
  = Ok (mkCommand QUERY [("query_type", VStr "count"); ("filter", VDict [])]
                  0.85 "what about bessie").
Proof. reflexivity. Qed.

(** C10.  The command that [parse] returns for an ASCII input carries
    the input with its leading and trailing whitespace stripped as
    [raw_text]; padding an input with whitespace changes nothing in what
    [parse] returns; and the details of a Health command built by the
    health extractor default to the stripped text. *)
Theorem raw_text_is_stripped (today : date) (s w1 w2 : string) :
  Py.isascii s = true ->
  Py.all_chars Py.isspace w1 = true ->
  Py.all_chars Py.isspace w2 = true ->
  (forall cmd, CommandParser.parse today (w1 ++ s ++ w2) = Ok cmd ->
               raw_text cmd = Py.strip s) /\
  CommandParser.parse today (w1 ++ s ++ w2) = CommandParser.parse today s /\
  (forall cmd,
      CommandParser.parse today s = Ok cmd ->
      command_type cmd = HEALTH ->
      CommandParser.has_event (Py.lower (Py.strip s)) = true ->
      CommandParser.first_in CommandParser.CONDITIONS (Py.lower (Py.strip s)) = None ->
      Dict.get "details" (params cmd) = Some (VStr (Py.strip s))).
Proof.
  intros _ H1 H2.
  assert (Hpad : CommandParser.parse today (w1 ++ s ++ w2) = CommandParser.parse today s).
  { unfold CommandParser.parse. rewrite (PyFacts.strip_pad w1 s w2 H1 H2). reflexivity. }
  split; [|split].
  - intros cmd H. rewrite Hpad in H.
    apply ParserFacts.parse_outcomes in H as [H _]. exact H.
  - exact Hpad.
  - intros cmd H Ht He Hc. apply ParserFacts.parse_inv in H.
    destruct H as [? ->|? ? ->|? ? ? H|? ? ? ? H|? ? ? ? ? H|? ? ? ? ? ? H
                   |? ? ? ? ? ? ? H|? ? ? ? ? ? ? H];
      try discriminate Ht; try Dispatch.wrong_intent Ht.
    + eapply ParserFacts.parse_event_details; eauto.
    + congruence.
Qed.

Lemma raw_text_is_stripped_witness :
  (forall cmd,
      CommandParser.parse example_day ("  " ++ "Cow 15 saw the vet" ++ " ") = Ok cmd ->
      raw_text cmd = Py.strip "Cow 15 saw the vet") /\
  CommandParser.parse example_day ("  " ++ "Cow 15 saw the vet" ++ " ")
  = CommandParser.parse example_day "Cow 15 saw the vet" /\
  (forall cmd,
      CommandParser.parse example_day "Cow 15 saw the vet" = Ok cmd ->
      command_type cmd = HEALTH ->
      CommandParser.has_event (Py.lower (Py.strip "Cow 15 saw the vet")) = true ->
      CommandParser.first_in CommandParser.CONDITIONS
                             (Py.lower (Py.strip "Cow 15 saw the vet")) = None ->
      Dict.get "details" (params cmd) = Some (VStr (Py.strip "Cow 15 saw the vet"))).
Proof.
  exact (raw_text_is_stripped example_day "Cow 15 saw the vet" "  " " "
           eq_refl eq_refl eq_refl).
Defined.

(** The stripped text, not the original string, is what is stored. *)
Example raw_text_padded (today : date) :
  CommandParser.parse today "  help  " = Ok (mkCommand HELP [] 1.0 "help").
Proof. reflexivity. Qed.

(** C2, as stated, fails: a query trigger is checked before the sale
    triggers, so an input with "sold" and health keywords is a Query when
    it also holds a query trigger. *)
Lemma sale_precedes_health_counterexample :
  Py.contains "sold" "how many sick calves sold after vet visit" = true /\
  Py.contains "sick" "how many sick calves sold after vet visit" = true /\
  CommandParser.has_event "how many sick calves sold after vet visit" = true /\
  exists cmd,
    CommandParser.parse example_day "how many sick calves sold after vet visit" = Ok cmd /\
    command_type cmd = QUERY /\ command_type cmd <> SALE.
Proof.
  repeat split; try reflexivity.
  eexists. split; [reflexivity|]. split; [reflexivity|discriminate].
Qed.

(** C2, amended.  An input that contains "sold" (trimmed, lower-cased) and
    a health or event keyword, and no query trigger, is handed to the Sale
    extractor, and the command that [parse] returns for it is a Sale. *)
Theorem sale_precedes_health (today : date) (s : string) :
  Py.contains "sold" (Py.lower (Py.strip s)) = true ->
  CommandParser.has_event (Py.lower (Py.strip s)) = true \/
  Py.any_in CommandParser.CONDITIONS (Py.lower (Py.strip s)) = true ->
  CommandParser.has_query (Py.lower (Py.strip s)) = false ->
  CommandParser.parse today s
  = CommandParser._parse_sale today (Py.strip s) (Py.lower (Py.strip s)) /\
  (forall cmd, CommandParser.parse today s = Ok cmd -> command_type cmd = SALE).
Proof.
  intros Hsold _ Hq.
  pose proof (ParserFacts.sold_is_sale _ Hsold) as Hsale.
  assert (Hd : CommandParser.parse today s
               = CommandParser._parse_sale today (Py.strip s) (Py.lower (Py.strip s))).
  { unfold CommandParser.parse. cbv zeta.
    remember (Py.lower (Py.strip s)) as low eqn:Elow. clear Elow.
    destruct (CommandParser.is_help low) eqn:Hh.
    { unfold CommandParser.is_help, Py.mem in Hh.
      cbn [existsb CommandParser.HELP_LITERALS] in Hh.
      repeat (apply orb_prop in Hh as [Hh|Hh]); try discriminate Hh;
        apply String.eqb_eq in Hh; subst low; vm_compute in Hsold; discriminate Hsold. }
    destruct (CommandParser.is_status low) eqn:Hs.
    { unfold CommandParser.is_status, Py.mem in Hs.
      cbn [existsb CommandParser.STATUS_LITERALS] in Hs.
      repeat (apply orb_prop in Hs as [Hs|Hs]); try discriminate Hs;
        apply String.eqb_eq in Hs; subst low; vm_compute in Hsold; discriminate Hsold. }
    rewrite Hq, Hsale. reflexivity. }
  split; [exact Hd|].
  intros cmd H. rewrite Hd in H.
  apply ParserFacts.parse_sale_shape in H as (Ht & _). exact Ht.
Qed.

Lemma sale_precedes_health_witness :
  command_type
    (mkCommand SALE
               [ ("head_count", VInt 3); ("price_per_lb", VNone); ("avg_weight", VNone);
                 ("cattle_type", VStr "steer"); ("buyer", VNone);
                 ("date", VDate example_day) ]
               0.9 "sold 3 sick calves") = SALE.
Proof.
  exact (proj2 (sale_precedes_health example_day "sold 3 sick calves"
                  eq_refl (or_intror eq_refl) eq_refl) _ eq_refl).
Defined.

(** C4, as stated, fails: the Health command that fallback inference
    builds has no date key. *)
Lemma slots_present_counterexample :
  In "date" (listed_slots HEALTH) /\
  exists cmd,
    CommandParser.parse example_day "42 sick" = Ok cmd /\
    command_type cmd = HEALTH /\
    Dict.keys (params cmd) = ["tag"; "event_type"; "details"] /\
    Dict.has_key "date" (params cmd) = false.
Proof.
  split; [cbn; auto|].
  eexists. split; [reflexivity|]. repeat split; reflexivity.
Qed.

(** C4, amended.  The command that [parse] returns holds every slot the
    data model lists for its intent, [None] marking an absent value, and
    a Health command holds the date of the day; except for the Health
    command of fallback inference (no event synonym in the text), whose
    keys are tag, event_type and details only. *)
Theorem slots_present (today : date) (s : string) (cmd : ParsedCommand) :
  CommandParser.parse today s = Ok cmd ->
  (command_type cmd = HEALTH /\
   CommandParser.has_event (Py.lower (Py.strip s)) = false /\
   Dict.keys (params cmd) = ["tag"; "event_type"; "details"]) \/
  ((forall k, In k (listed_slots (command_type cmd)) ->
              Dict.has_key k (params cmd) = true) /\
   (command_type cmd = HEALTH ->
    Dict.get "date" (params cmd) = Some (VDate today))).
Proof.
  intros H. apply ParserFacts.parse_inv in H.
  destruct H as [? ->|? ? ->|? ? ? H|? ? ? ? H|? ? ? ? ? H|? ? ? ? ? ? H
                 |? ? ? ? ? ? ? H|? ? ? ? ? ? ? H].
  - right. cbn. split; [contradiction|discriminate].
  - right. cbn. split; [contradiction|discriminate].
  - right. apply ParserFacts.parse_query_shape in H as (Ht & _ & _ & Hk).
    rewrite Ht. split; [|discriminate].
    intros k Hin. apply ParserFacts.keys_has_key. rewrite Hk. exact Hin.
  - right. apply ParserFacts.parse_sale_shape in H as (Ht & _ & _ & Hk).
    rewrite Ht. split; [|discriminate].
    intros k Hin. apply ParserFacts.keys_has_key. rewrite Hk. exact Hin.
  - right. apply ParserFacts.parse_event_shape in H as (Ht & _ & _ & Hk & Hd).
    rewrite Ht. split; [|intros _; exact Hd].
    intros k Hin. apply ParserFacts.keys_has_key. rewrite Hk. exact Hin.
  - right.
    destruct (ParserFacts.parse_move_spec (Py.strip s) (Py.lower (Py.strip s)))
      as (tag & loc & Hm & _ & _).
    rewrite Hm in H. inversion H; subst cmd. cbn [command_type params].
    split; [|discriminate].
    intros k Hin. apply ParserFacts.keys_has_key. exact Hin.
  - right. apply ParserFacts.parse_add_shape in H as (Ht & _ & _ & Hk).
    rewrite Ht. split; [|discriminate].
    intros k Hin. apply ParserFacts.keys_has_key. rewrite Hk. exact Hin.
  - apply ParserFacts.parse_infer_shape in H as (_ & [(Ht & _ & Hk)| ->]).
    + left. auto.
    + right. cbn. split; [contradiction|discriminate].
Qed.

Lemma slots_present_witness :
  (HEALTH = HEALTH /\
   CommandParser.has_event (Py.lower (Py.strip "vet visit cow 15 pink eye")) = false /\
   ["tag"; "event_type"; "details"; "date"] = ["tag"; "event_type"; "details"]) \/
  ((forall k, In k (listed_slots HEALTH) ->
              Dict.has_key k [ ("tag", VStr "15"); ("event_type", VStr "vet");
                               ("details", VStr "Pink Eye"); ("date", VDate example_day) ]
              = true) /\
   (HEALTH = HEALTH ->
    Dict.get "date" [ ("tag", VStr "15"); ("event_type", VStr "vet");
                      ("details", VStr "Pink Eye"); ("date", VDate example_day) ]
    = Some (VDate example_day))).
Proof.
  exact (slots_present example_day "vet visit cow 15 pink eye"
           (mkCommand HEALTH
                      [ ("tag", VStr "15"); ("event_type", VStr "vet");
                        ("details", VStr "Pink Eye"); ("date", VDate example_day) ]
                      0.85 "vet visit cow 15 pink eye")
           eq_refl).
Defined.





(** What the two branches of the fallback return on concrete inputs. *)
Example fallback_health (today : date) :
  CommandParser.parse today "42 Limping badly"
  = Ok (mkCommand HEALTH
                  [ ("tag", VStr "42"); ("event_type", VStr "note");
                    ("details", VStr "limping badly") ]
                  0.7 "42 Limping badly").
Proof. reflexivity. Qed.

Example fallback_unknown (today : date) :
  CommandParser.parse today "xyz nonsense"
  = Ok (mkCommand UNKNOWN [("raw", VStr "xyz nonsense")] 0.0 "xyz nonsense").
Proof. reflexivity. Qed.

(** C3.  On "add calf born today red tag" [parse] does not return an
    AddCattle command.  "born" is an add trigger and also an event
    synonym, and the event check comes before the add check: the sentence,
    which the help text gives as the example of adding a calf, is returned
    as a Health command of type "birth", with no tag, the text as details
    and the date of the day. *)
Theorem add_scenario (today : date) :
  CommandParser.parse today "add calf born today red tag"
  = Ok (mkCommand HEALTH
                  [ ("tag", VNone); ("event_type", VStr "birth");
                    ("details", VStr "add calf born today red tag");
                    ("date", VDate today) ]
                  0.85 "add calf born today red tag") /\
  In "born" CommandParser.ADD_WORDS /\
  CommandParser.has_add "add calf born today red tag" = true /\
  CommandParser.has_event "add calf born today red tag" = true /\
  Py.contains "Add calf born today red tag" HELP_TEXT = true.
Proof. repeat split; try reflexivity. cbn. auto. Qed.

(** What the add extractor would make of the sentence: type "calf",
    birth_date today, notes "red tag", and the tag "RED", the word before
    "tag", which the colour does not replace. *)
Example add_extractor_on_example (today : date) :
  CommandParser._parse_add today "add calf born today red tag"
                           (Py.lower "add calf born today red tag")
  = Ok (mkCommand ADD_CATTLE
                  [ ("type", VStr "calf"); ("breed", VStr "Angus");
                    ("birth_date", VDate today); ("tag", VStr "RED");
                    ("location", VNone); ("notes", VStr "red tag") ]
                  0.8 "add calf born today red tag").
Proof. reflexivity. Qed.

(** C5.  On "how many calves this month" [parse] returns a count Query
    since the first day of the month, but with no type in the filter:
    [_parse_query] looks for the category names only, and "calf" does not
    occur in "calves", which the synonym table would recognise. *)
Theorem query_scenario (today : date) :
  CommandParser.parse today "how many calves this month"
  = Ok (mkCommand QUERY
                  [ ("query_type", VStr "count");
                    ("filter", VDict [("since", VDate (Date.first_of_month today))]) ]
                  0.85 "how many calves this month") /\
  Py.contains "calf" "how many calves this month" = false /\
  CommandParser.first_category CommandParser.CATTLE_TYPES "how many calves this month"
  = Some "calf".
Proof. repeat split; reflexivity. Qed.

(** C6.  On "sold 5 steers $1.85/lb avg 1100" [parse] returns Sale with
    head_count 5, price_per_lb 1.85, avg_weight 1100.0 and cattle_type
    "steer", and the confirmation reports $10,175, which is
    5 x 1.85 x 1100. *)
Theorem sale_scenario (today : date) (repr : value -> string) (res : dict) :
  let cmd :=
    mkCommand SALE
              [ ("head_count", VInt 5); ("price_per_lb", VFloat 1.85);
                ("avg_weight", VFloat 1100.0); ("cattle_type", VStr "steer");
                ("buyer", VNone); ("date", VDate today) ]
              0.9 "sold 5 steers $1.85/lb avg 1100" in
  CommandParser.parse today "sold 5 steers $1.85/lb avg 1100" = Ok cmd /\
  generate_response repr cmd res = Ok "✓ Recorded sale: 5 steer(s) - $10,175" /\
  (pw <- py_mul (VFloat 1.85) (VFloat 1100.0) ;; py_mul pw (VInt 5))
  = Ok (VFloat 10175.0) /\
  (5 * 185 * 1100 = 10175 * 100)%Z.
Proof. repeat split; reflexivity. Qed.
(* ================================================================= *)
(** * Further properties *)

(** ** Stripping *)

Module StripFacts.
Import Py.

Lemma rstrip_idem s : rstrip (rstrip s) = rstrip s.
Proof.
  induction s as [|a s IH]; cbn [rstrip]; [reflexivity|].
  destruct (rstrip s) as [|b r] eqn:E.
  - destruct (isspace a) eqn:Ha; cbn [rstrip]; [reflexivity|].
    rewrite Ha. reflexivity.
  - change (rstrip (String a (String b r))) with
      (match rstrip (String b r) with
       | EmptyString => if isspace a then EmptyString else String a EmptyString
       | String c r' => String a (String c r')
       end).
    rewrite IH. reflexivity.
Qed.

Lemma rstrip_head a s :
  isspace a = false -> exists r, rstrip (String a s) = String a r.
Proof.
  intros Ha. cbn [rstrip]. destruct (rstrip s); [rewrite Ha|]; eauto.
Qed.

Lemma lstrip_head s :
  lstrip s = EmptyString \/
  exists a r, lstrip s = String a r /\ isspace a = false.
Proof.
  induction s as [|a s IH]; cbn [lstrip]; [auto|].
  destruct (isspace a) eqn:Ha; [exact IH|]. right. eauto.
Qed.

(** [strip] is idempotent. *)
Lemma strip_idem s : strip (strip s) = strip s.
Proof.
  unfold strip. destruct (lstrip_head s) as [->|(a & r & -> & Ha)].
  - reflexivity.
  - destruct (rstrip_head a r Ha) as (r' & E). rewrite E.
    cbn [lstrip]. rewrite Ha. rewrite <- E. apply rstrip_idem.
Qed.

Lemma strip_ws w : all_chars isspace w = true -> strip w = EmptyString.
Proof. intros H. unfold strip. rewrite (PyFacts.lstrip_ws w H). reflexivity. Qed.

End StripFacts.

(** ** What a group can capture *)

Module ClassFacts.
Import Re ReSpec ReClass.

Lemma all_chars_app q a b :
  Py.all_chars q (a ++ b) = Py.all_chars q a && Py.all_chars q b.
Proof.
  induction a as [|x a IH]; cbn; [reflexivity|]. rewrite IH. apply andb_assoc.
Qed.

Lemma take_add n k s :
  Py.take (n + k) s = Py.take n s ++ Py.take k (Py.drop n s).
Proof.
  revert s. induction n as [|n IH]; intros s; cbn.
  - destruct s; reflexivity.
  - destruct s as [|a s]; cbn; [destruct k; reflexivity|]. now rewrite IH.
Qed.

Lemma prefix_take l s : prefix l s = true -> Py.take (length l) s = l.
Proof.
  revert s. induction l as [|a l IH]; intros [|b s]; cbn; try reflexivity;
    try discriminate.
  destruct (ascii_dec a b) as [->|]; [|discriminate].
  intros H. now rewrite (IH s H).
Qed.

(** The text that a run consumes is made of the pattern's characters. *)
Lemma steps_consumes q r i s c i' s' c' :
  steps r i s c i' s' c' ->
  consumes q r ->
  Py.all_chars q (Py.take (i' - i) s) = true.
Proof.
  induction 1; cbn [consumes]; intros Hq.
  - rewrite Nat.sub_diag. destruct s; reflexivity.
  - replace (i + length l - i) with (length l) by lia.
    rewrite (prefix_take l s H). exact Hq.
  - replace (S i - i) with 1 by lia. cbn. rewrite (Hq a H). reflexivity.
  - rewrite Nat.sub_diag. destruct s; reflexivity.
  - apply ReFacts.steps_advance in H0 as Hadv. destruct Hadv as (Ha & _).
    cbn [min_len] in Ha.
    replace (i' - i) with (S (i' - S i)) by lia. cbn.
    rewrite (Hq a H), (IHsteps Hq). reflexivity.
  - destruct Hq as [Hq1 Hq2].
    apply ReFacts.steps_advance in H as (Ha1 & _ & Hs1).
    apply ReFacts.steps_advance in H0 as (Ha2 & _ & _).
    replace (i2 - i) with ((i1 - i) + (i2 - i1)) by lia.
    rewrite take_add, all_chars_app, <- Hs1, (IHsteps1 Hq1), (IHsteps2 Hq2).
    reflexivity.
  - apply IHsteps, Hq.
  - apply IHsteps, Hq.
  - apply IHsteps, Hq.
  - rewrite Nat.sub_diag. destruct s; reflexivity.
  - apply IHsteps, Hq.
  - destruct s; reflexivity.
  - rewrite Nat.sub_diag. destruct s; reflexivity.
Qed.

Lemma steps_group_within n q r i s c i' s' c' :
  steps r i s c i' s' c' ->
  group_within n q r ->
  (forall g, lookup n c = Some g -> Py.all_chars q g = true) ->
  forall g, lookup n c' = Some g -> Py.all_chars q g = true.
Proof.
  induction 1; cbn [group_within]; intros Hg Hc; auto.
  - destruct Hg as [Hg1 Hg2]. auto.
  - destruct Hg as [Hg1 Hg2]. auto.
  - destruct Hg as [Hg1 Hg2]. auto.
  - destruct Hg as [Hg1 Hg2]. intros g. cbn [lookup].
    destruct (Nat.eqb n0 n) eqn:E.
    + apply Nat.eqb_eq in E. intros Hl. inversion Hl; subst g.
      eapply steps_consumes; eauto.
    + apply IHsteps; assumption.
Qed.

(** A group whose pattern stays within a class captures text of that class. *)
Lemma search_group_within n q r s mt g :
  group_within n q r ->
  search r s = Some mt -> group mt n = Some g ->
  Py.all_chars q g = true.
Proof.
  intros Hw Hs Hg. unfold search in Hs.
  apply ReFacts.search_from_sound in Hs as (j & i' & s' & _ & _ & Hst & _).
  eapply steps_group_within; [exact Hst|exact Hw| |exact Hg].
  cbn. discriminate.
Qed.

Lemma digit_is_word a : Py.isdigit a = true -> Py.isword a = true.
Proof. unfold Py.isword. intros ->. now rewrite orb_true_r. Qed.

Lemma upper_char_word a : Py.isword a = true -> Py.isword (Py.upper_char a) = true.
Proof.
  destruct a as [[|] [|] [|] [|] [|] [|] [|] [|]]; intros H;
    first [discriminate H|reflexivity].
Qed.

Lemma upper_word g :
  Py.all_chars Py.isword g = true -> Py.all_chars Py.isword (Py.upper g) = true.
Proof.
  induction g as [|a g IH]; cbn; [reflexivity|].
  intros H. apply andb_prop in H as [Ha Hg].
  fold (Py.upper g). rewrite (upper_char_word a Ha), (IH Hg). reflexivity.
Qed.

Lemma upper_nonempty g : g <> EmptyString -> Py.upper g <> EmptyString.
Proof. destruct g; [congruence|discriminate]. Qed.

Lemma cattle_id_digits lower mt g :
  search Pat.cattle_id lower = Some mt -> group mt 1 = Some g ->
  Py.all_chars Py.isdigit g = true.
Proof. apply search_group_within. cbn. intuition. Qed.

Lemma query_tag_digits lower mt g :
  search Pat.query_tag lower = Some mt -> group mt 1 = Some g ->
  Py.all_chars Py.isdigit g = true.
Proof. apply search_group_within. cbn. intuition. Qed.

Lemma tag_patterns_word lower mt g :
  first_search Pat.tag_patterns lower = Some mt -> group mt 1 = Some g ->
  Py.all_chars Py.isword g = true.
Proof.
  intros H. apply ReFacts.first_search_in in H as (r & Hin & Hs).
  destruct Hin as [<-|[<-|[<-|[<-|[]]]]];
    (eapply search_group_within; [|exact Hs]);
    cbn; intuition auto using digit_is_word.
Qed.

Lemma tag_patterns_group lower mt :
  first_search Pat.tag_patterns lower = Some mt ->
  exists g, group mt 1 = Some g /\ g <> EmptyString.
Proof.
  intros H. apply ReFacts.first_search_in in H as (r & Hin & Hs).
  destruct Hin as [<-|[<-|[<-|[<-|[]]]]];
    (refine (ReFacts.search_group _ 1 _ _ _ _ Hs); reflexivity).
Qed.

End ClassFacts.

(** ** Tables, conversions and the weight pattern *)

Module TableFacts.
Import CommandParser.

Lemma first_in_found words lower w :
  first_in words lower = Some w -> In w words /\ Py.contains w lower = true.
Proof.
  unfold first_in. intros H. apply find_some in H as [H1 H2]. auto.
Qed.

Lemma first_category_found table lower c :
  first_category table lower = Some c -> In c (map fst table).
Proof.
  unfold first_category. destruct (find _ table) as [e|] eqn:E; [|discriminate].
  cbn. intros H. inversion H; subst. apply find_some in E as [E _].
  apply in_map. exact E.
Qed.

Lemma has_event_category lower :
  has_event lower = true ->
  exists e, first_category EVENT_TYPES lower = Some e.
Proof.
  unfold has_event, first_category. generalize EVENT_TYPES.
  induction l as [|[name words] l IH]; cbn [map existsb find snd];
    [discriminate|].
  destruct (Py.any_in words lower); cbn [orb option_map].
  - intros _. eexists. reflexivity.
  - exact IH.
Qed.

Lemma digit_val_nonneg c : Py.isdigit c = true -> (0 <= Num.digit_val c)%Z.
Proof.
  unfold Py.isdigit, Py.in_range, Num.digit_val. intros H.
  apply andb_prop in H as [H _]. apply N.leb_le in H. cbn in H. lia.
Qed.

Lemma digits_val_nonneg s : forall acc,
  (0 <= acc)%Z -> Py.all_chars Py.isdigit s = true ->
  (0 <= Num.digits_val acc s)%Z.
Proof.
  induction s as [|c s IH]; cbn [Num.digits_val Py.all_chars]; intros acc Ha H;
    [exact Ha|].
  apply andb_prop in H as [Hc Hs]. apply IH; [|exact Hs].
  pose proof (digit_val_nonneg c Hc). lia.
Qed.

Lemma py_int_ok g n : Num.py_int g = Ok n -> (0 <= n)%Z.
Proof.
  unfold Num.py_int.
  destruct (Py.all_chars Py.isdigit g) eqn:Hd; cbn [negb orb]; [|discriminate].
  destruct (Nat.eqb (length g) 0); [discriminate|].
  destruct (Nat.ltb _ _); [discriminate|].
  intros H. inversion H; subst. apply digits_val_nonneg; [lia|exact Hd].
Qed.

Lemma digit_val_le c : Py.isdigit c = true -> (Num.digit_val c <= 9)%Z.
Proof.
  destruct c as [[] [] [] [] [] [] [] []]; vm_compute; congruence.
Qed.

Lemma digits_val_bound s : forall acc,
  Py.all_chars Py.isdigit s = true ->
  (Num.digits_val acc s < (acc + 1) * 10 ^ Z.of_nat (length s))%Z.
Proof.
  induction s as [|c s IH]; intros acc H; cbn [Num.digits_val length].
  - cbn. lia.
  - cbn in H. apply andb_prop in H as [Hc Hs].
    specialize (IH (10 * acc + Num.digit_val c)%Z Hs).
    apply digit_val_le in Hc.
    rewrite Nat2Z.inj_succ, Z.pow_succ_r by lia.
    assert (0 < 10 ^ Z.of_nat (length s))%Z by (apply Z.pow_pos_nonneg; lia).
    nia.
Qed.

(** A number below [10^k] has at most [k] decimal digits. *)
Lemma digits_of_length fuel : forall n acc k,
  (0 <= n < 10 ^ Z.of_nat (S k))%Z ->
  length (Num.digits_of fuel n acc) <= length acc + S k.
Proof.
  induction fuel as [|fuel IH]; intros n acc k Hn; cbn [Num.digits_of]; [lia|].
  destruct (n / 10 =? 0)%Z eqn:E; [cbn [length]; lia|].
  apply Z.eqb_neq in E.
  destruct k as [|k].
  - exfalso. apply E. apply Z.div_small. cbn in Hn. lia.
  - rewrite Nat2Z.inj_succ, Z.pow_succ_r in Hn by lia.
    specialize (IH (n / 10)%Z (String (Num.digit_char (n mod 10)) acc) k).
    cbn [length] in IH.
    assert (0 <= n / 10 < 10 ^ Z.of_nat (S k))%Z.
    { split; [apply Z.div_pos; lia|apply Z.div_lt_upper_bound; lia]. }
    specialize (IH H). lia.
Qed.

(** An integer that [int] accepted can be rendered again: it has no more
    digits than the string it was read from. *)
Lemma py_int_renders g n : Num.py_int g = Ok n -> ints_within_limit (VInt n) = true.
Proof.
  unfold Num.py_int.
  destruct (Py.all_chars Py.isdigit g) eqn:Hd; cbn [negb orb]; [|discriminate].
  destruct (Nat.eqb (length g) 0) eqn:H0; [discriminate|].
  destruct (Nat.ltb _ _) eqn:Hl; [discriminate|].
  intros H. inversion H; subst. clear H.
  apply Nat.eqb_neq in H0. apply Nat.ltb_ge in Hl.
  pose proof (digits_val_nonneg g 0 ltac:(lia) Hd) as Hn.
  pose proof (digits_val_bound g 0 Hd) as Hb.
  cbn [ints_within_limit]. apply Nat.leb_le.
  rewrite Z.abs_eq by exact Hn. unfold Num.str_of_Z.
  rewrite Z.abs_eq by exact Hn.
  destruct (Num.digits_val 0 g <? 0)%Z eqn:Hneg; [apply Z.ltb_lt in Hneg; lia|].
  destruct (length g) as [|k] eqn:Ek; [congruence|].
  pose proof (digits_of_length (S (Z.to_nat (Z.log2 (Num.digits_val 0 g))))
                               (Num.digits_val 0 g) "" k) as Hlen.
  cbn [length] in Hlen. cbv zeta.
  assert (0 <= Num.digits_val 0 g < 10 ^ Z.of_nat (S k))%Z by lia.
  specialize (Hlen H). lia.
Qed.

Lemma py_int_err g e : Num.py_int g = Err e -> e = ValueError.
Proof.
  unfold Num.py_int.
  destruct (negb _ || _); [intros H; inversion H; reflexivity|].
  destruct (Nat.ltb _ _); intros H; inversion H; reflexivity.
Qed.

Lemma py_float_err g e : Num.py_float g = Err e -> e = ValueError.
Proof.
  unfold Num.py_float. cbv zeta.
  destruct (_ && _ && _); intros H; inversion H; reflexivity.
Qed.

Lemma before_dot_digits g :
  Py.all_chars Py.isdigit g = true ->
  Num.before_dot g = g /\ Num.after_dot g = EmptyString.
Proof.
  induction g as [|c g IH]; cbn [Py.all_chars Num.before_dot Num.after_dot];
    [auto|].
  intros H. apply andb_prop in H as [Hc Hg]. destruct (IH Hg) as [-> ->].
  destruct (Ascii.eqb c ".") eqn:E; [|auto].
  apply Ascii.eqb_eq in E. subst c. discriminate Hc.
Qed.

(** [float] accepts every non-empty string of digits. *)
Lemma py_float_digits g :
  Py.all_chars Py.isdigit g = true -> g <> EmptyString ->
  exists f, Num.py_float g = Ok f.
Proof.
  intros Hd Hn. unfold Num.py_float. cbv zeta.
  destruct (before_dot_digits g Hd) as [-> ->]. rewrite Hd. cbn [Py.all_chars andb].
  destruct g as [|c g]; [congruence|]. cbn [length Nat.add Nat.eqb negb]. eauto.
Qed.

Lemma yesterday_err today e : Date.yesterday today = Err e -> e = OverflowError.
Proof.
  unfold Date.yesterday.
  repeat match goal with
         | |- context [if ?b then _ else _] => destruct b
         end; intros H; inversion H; reflexivity.
Qed.

(** The value that [_parse_sale] converts to the average weight: the
    digits of whichever alternative of the pattern matched. *)
Lemma weight_value lower mt :
  Re.search Pat.weight lower = Some mt ->
  exists g,
    py_or (py_or (group_val mt 1) (group_val mt 2)) (group_val mt 3) = VStr g /\
    Py.all_chars Py.isdigit g = true /\ g <> EmptyString.
Proof.
  intros H. unfold Re.search in H.
  apply ReFacts.search_from_sound in H as (j & i' & s' & _ & _ & Hst & _).
  unfold group_val, Re.group.
  remember (Re.m_caps mt) as cs eqn:Ecs. clear Ecs.
  assert (Hne : forall n g, Re.lookup n cs = Some g -> g <> EmptyString).
  { intros n g. apply ReFacts.lookup_nonempty.
    eapply ReFacts.steps_nonempty; [exact Hst|reflexivity|constructor]. }
  assert (Hdg : forall n g, Re.lookup n cs = Some g ->
                            Py.all_chars Py.isdigit g = true).
  { intros n g. eapply ClassFacts.steps_group_within; [exact Hst| |cbn; discriminate].
    cbn. intuition. }
  assert (Hsome : Re.lookup 1 cs <> None \/ Re.lookup 2 cs <> None \/
                  Re.lookup 3 cs <> None).
  { unfold Pat.weight in Hst.
    inversion Hst as [| | | | | |? ? ? ? ? ? ? ? H1|? ? ? ? ? ? ? ? H1| | | | |];
      subst; clear Hst.
    - left. eapply ReFacts.steps_defines; [exact H1|right; reflexivity].
    - right.
      inversion H1 as [| | | | | |? ? ? ? ? ? ? ? H2|? ? ? ? ? ? ? ? H2| | | | |];
        subst; clear H1.
      + left. eapply ReFacts.steps_defines; [exact H2|right; reflexivity].
      + right. eapply ReFacts.steps_defines; [exact H2|right; reflexivity]. }
  assert (Htruthy : forall g, g <> EmptyString -> truthy (VStr g) = true).
  { intros [|a g] Hg; [congruence|reflexivity]. }
  destruct (Re.lookup 1 cs) as [g1|] eqn:E1.
  { exists g1. unfold py_or. rewrite (Htruthy g1 (Hne 1 g1 E1)).
    rewrite (Htruthy g1 (Hne 1 g1 E1)). eauto. }
  destruct (Re.lookup 2 cs) as [g2|] eqn:E2.
  { exists g2. unfold py_or. change (truthy VNone) with false. cbv iota.
    rewrite (Htruthy g2 (Hne 2 g2 E2)). eauto. }
  destruct (Re.lookup 3 cs) as [g3|] eqn:E3.
  { exists g3. unfold py_or. cbn [truthy]. eauto. }
  exfalso. destruct Hsome as [Hs|[Hs|Hs]]; apply Hs; reflexivity.
Qed.

End TableFacts.

(** ** More on the extractors *)

Module ExtractorFacts.
Import CommandParser ParserFacts.

#[local] Opaque Py.contains Py.any_in Re.search first_search Py.title Py.upper
  Py.lower Date.strftime_md Date.yesterday Num.py_int Num.py_float
  Num.float_of_Z String.append first_in first_category ints_within_limit.

Lemma add_from_extractor today s cmd :
  parse today s = Ok cmd -> command_type cmd = ADD_CATTLE ->
  _parse_add today (Py.strip s) (Py.lower (Py.strip s)) = Ok cmd.
Proof.
  intros H Ht. apply parse_inv in H.
  destruct H as [? ->|? ? ->|? ? ? H|? ? ? ? H|? ? ? ? ? H|? ? ? ? ? ? H
                 |? ? ? ? ? ? ? H|? ? ? ? ? ? ? H];
    try discriminate Ht; try Dispatch.wrong_intent Ht.
  assumption.
Qed.

Lemma sale_from_extractor today s cmd :
  parse today s = Ok cmd -> command_type cmd = SALE ->
  _parse_sale today (Py.strip s) (Py.lower (Py.strip s)) = Ok cmd.
Proof.
  intros H Ht. apply parse_inv in H.
  destruct H as [? ->|? ? ->|? ? ? H|? ? ? ? H|? ? ? ? ? H|? ? ? ? ? ? H
                 |? ? ? ? ? ? ? H|? ? ? ? ? ? ? H];
    try discriminate Ht; try Dispatch.wrong_intent Ht.
  assumption.
Qed.

(** A Health command comes from the event extractor when the text holds
    an event synonym, and from fallback inference otherwise. *)
Lemma health_from today s cmd :
  parse today s = Ok cmd -> command_type cmd = HEALTH ->
  (has_event (Py.lower (Py.strip s)) = true /\
   _parse_event today (Py.strip s) (Py.lower (Py.strip s)) = Ok cmd) \/
  (has_event (Py.lower (Py.strip s)) = false /\
   _infer_command (Py.strip s) (Py.lower (Py.strip s)) = Ok cmd).
Proof.
  intros H Ht. apply parse_inv in H.
  destruct H as [? ->|? ? ->|? ? ? H|? ? ? ? H|? ? ? ? ? H|? ? ? ? ? ? H
                 |? ? ? ? ? ? ? H|? ? ? ? ? ? ? H];
    try discriminate Ht; try Dispatch.wrong_intent Ht; auto.
Qed.

Lemma not_new_tag today g :
  Py.all_chars Py.isword g = true ->
  String.eqb (Py.upper g) (new_tag today) = false.
Proof.
  intros Hg. apply String.eqb_neq. intros E.
  apply ClassFacts.upper_word in Hg. rewrite E in Hg.
  unfold new_tag in Hg.
  change ("NEW-" ++ Date.strftime_md today)
    with (String "N" (String "E" (String "W" (String "-" (Date.strftime_md today)))))
    in Hg.
  cbn in Hg. discriminate Hg.
Qed.

(** The tag that [_parse_add] returns. *)
Lemma add_tag_value today text lower cmd :
  _parse_add today text lower = Ok cmd ->
  Dict.get "tag" (params cmd)
  = Some (VStr
            match first_search Pat.tag_patterns lower with
            | Some mt =>
                Py.upper (match Re.group mt 1 with Some g => g | None => EmptyString end)
            | None =>
                match first_in COLORS lower with
                | Some color => Py.upper color ++ "-" ++ Date.strftime_md today
                | None => new_tag today
                end
            end).
Proof.
  unfold _parse_add. intros H.
  destruct (first_search Pat.tag_patterns lower) as [mt|] eqn:Et.
  - destruct (ClassFacts.tag_patterns_group lower mt Et) as (g & Hg & Hg').
    pose proof (ClassFacts.tag_patterns_word lower mt g Et Hg) as Hw.
    pose proof (not_new_tag today g Hw) as Hn.
    apply ClassFacts.upper_nonempty in Hg'. apply String.eqb_neq in Hg'.
    unfold group_str in H. rewrite Hg in *.
    run_parser; try (rewrite ?Hg', ?Hn in *; cbn in *; congruence); reflexivity.
  - run_parser; try reflexivity;
      match goal with
      | E : String.eqb ?x ?x = false |- _ => rewrite String.eqb_refl in E; discriminate E
      end.
Qed.

Lemma head_count_group lower mt :
  Re.search Pat.head_count lower = Some mt ->
  exists g, Re.group mt 1 = Some g /\ g <> EmptyString.
Proof. apply ReFacts.search_group; reflexivity. Qed.

Lemma sold_count_group lower mt :
  Re.search Pat.sold_count lower = Some mt ->
  exists g, Re.group mt 1 = Some g /\ g <> EmptyString.
Proof. apply ReFacts.search_group; reflexivity. Qed.

Lemma price_group lower mt :
  Re.search Pat.price lower = Some mt ->
  exists g, Re.group mt 1 = Some g /\ g <> EmptyString.
Proof. apply ReFacts.search_group; reflexivity. Qed.

(** Name the groups that the patterns of [_parse_sale] always capture. *)
Ltac sale_groups H :=
  repeat match type of H with
    | context [Re.search Pat.weight ?l] =>
        let E := fresh "E" in
        destruct (Re.search Pat.weight l) as [?|] eqn:E;
        [let g := fresh "g" in
         let Hv := fresh "Hv" in
         let Hd := fresh "Hd" in
         let Hn := fresh "Hn" in
         let Hf := fresh "Hf" in
         apply TableFacts.weight_value in E as (g & Hv & Hd & Hn);
         destruct (TableFacts.py_float_digits g Hd Hn) as (? & Hf);
         rewrite Hv in H; cbn [float_of] in H; rewrite Hf in H|]
    | context [Re.search Pat.head_count ?l] =>
        let E := fresh "E" in
        destruct (Re.search Pat.head_count l) as [?|] eqn:E;
        [apply head_count_group in E as (? & E & _); unfold group_val in H;
         rewrite E in H|]
    | context [Re.search Pat.sold_count ?l] =>
        let E := fresh "E" in
        destruct (Re.search Pat.sold_count l) as [?|] eqn:E;
        [apply sold_count_group in E as (? & E & _); unfold group_val in H;
         rewrite E in H|]
    | context [Re.search Pat.price ?l] =>
        let E := fresh "E" in
        destruct (Re.search Pat.price l) as [?|] eqn:E;
        [apply price_group in E as (? & E & _); unfold group_val in H;
         rewrite E in H|]
    end.

Ltac step_result :=
  match goal with
  | H : Ok _ = Ok _ |- _ => inversion H; subst; clear H
  | H : Err _ = Err _ |- _ => inversion H; subst; clear H
  | H : Err _ = Ok _ |- _ => discriminate H
  | H : Ok _ = Err _ |- _ => discriminate H
  | H : context [match ?x with _ => _ end] |- _ => split_on x
  | |- context [match ?x with _ => _ end] => split_on x
  end.

Ltac run_result := repeat (unfold bind in *; cbn in *; step_result); cbn in *.

(** The slots of a Sale command. *)
Lemma sale_params today text lower cmd :
  _parse_sale today text lower = Ok cmd ->
  exists n p w ct,
    params cmd = [ ("head_count", VInt n); ("price_per_lb", p); ("avg_weight", w);
                   ("cattle_type", VStr ct); ("buyer", VNone); ("date", VDate today) ] /\
    (0 <= n)%Z /\
    (p = VNone \/ exists f, p = VFloat f) /\
    (w = VNone \/ exists f, w = VFloat f) /\
    In ct SALE_TYPES.
Proof.
  unfold _parse_sale. intros H. sale_groups H. 
  all: run_result.
  all: repeat match goal with
         | E : Num.py_int _ = Ok _ |- _ => apply TableFacts.py_int_ok in E
         | E : first_in _ _ = Some _ |- _ =>
             apply TableFacts.first_in_found in E as [E _]
         end.
  all: eexists _, _, _, _; split; [reflexivity|];
       repeat split; eauto; try lia; cbn; auto.
Qed.

(** The head count of a Sale command can be rendered. *)
Lemma sale_head_count_renders today text lower cmd :
  _parse_sale today text lower = Ok cmd ->
  exists n, Dict.get "head_count" (params cmd) = Some (VInt n) /\
            ints_within_limit (VInt n) = true.
Proof.
  unfold _parse_sale. intros H. sale_groups H.
  all: run_result.
  all: repeat match goal with
         | E : Num.py_int _ = Ok _ |- _ => apply TableFacts.py_int_renders in E
         end.
  all: eexists; split; [reflexivity|]; first [assumption | vm_compute; reflexivity].
Qed.

(** Every slot value that an extractor stores can be rendered. *)
Lemma sale_renders today text lower cmd :
  _parse_sale today text lower = Ok cmd ->
  ints_within_limit (VDict (params cmd)) = true.
Proof.
  intros H. destruct (sale_head_count_renders _ _ _ _ H) as (n & Hn & Hr).
  apply sale_params in H as (n' & p & w & ct & Hp & _ & Hpv & Hwv & _).
  rewrite Hp in Hn |- *. cbn in Hn. inversion Hn; subst n'.
  change (ints_within_limit (VInt n)
          && (ints_within_limit p && (ints_within_limit w && true)) = true).
  rewrite Hr. destruct Hpv as [->|(? & ->)]; destruct Hwv as [->|(? & ->)]; reflexivity.
Qed.

Lemma query_renders today text lower cmd :
  _parse_query today text lower = Ok cmd ->
  ints_within_limit (VDict (params cmd)) = true.
Proof.
  unfold _parse_query, filter_by_type, filter_set. intros H.
  run_result; try reflexivity.
  unfold group_val. destruct (Re.group _ _); reflexivity.
Qed.

Lemma move_renders text lower cmd :
  _parse_move text lower = Ok cmd ->
  ints_within_limit (VDict (params cmd)) = true.
Proof.
  unfold _parse_move. intros H. run_result; try reflexivity.
  all: unfold group_val; repeat destruct (Re.group _ _); try reflexivity.
Qed.

Lemma infer_renders text lower cmd :
  _infer_command text lower = Ok cmd ->
  ints_within_limit (VDict (params cmd)) = true.
Proof.
  unfold _infer_command, group_str. intros H. run_result; try reflexivity.
  all: unfold group_val; repeat destruct (Re.group _ _); try reflexivity.
Qed.

Lemma add_renders today text lower cmd :
  _parse_add today text lower = Ok cmd ->
  ints_within_limit (VDict (params cmd)) = true.
Proof.
  unfold _parse_add. intros H. run_result; try reflexivity.
Qed.

(** [_parse_sale] raises nothing but [ValueError]. *)
Lemma sale_err today text lower e :
  _parse_sale today text lower = Err e -> e = ValueError.
Proof.
  unfold _parse_sale. intros H. sale_groups H.
  all: run_result.
  all: repeat match goal with
         | E : Num.py_int _ = Err _ |- _ => apply TableFacts.py_int_err in E
         | E : Num.py_float _ = Err _ |- _ => apply TableFacts.py_float_err in E
         end; congruence.
Qed.

(** [_parse_add] raises only when "yesterday" has no date. *)
Lemma add_err today text lower e :
  _parse_add today text lower = Err e ->
  e = OverflowError /\ Py.contains "yesterday" lower = true /\
  Date.yesterday today = Err OverflowError.
Proof.
  unfold _parse_add. intros H.
  destruct (first_search Pat.tag_patterns lower) as [mt|] eqn:Et.
  - destruct (ClassFacts.tag_patterns_group lower mt Et) as (g & Hg & _).
    unfold group_str in H. rewrite Hg in H.
    run_result;
      match goal with
      | E : Date.yesterday _ = Err _ |- _ =>
          pose proof (TableFacts.yesterday_err _ _ E); subst; auto
      end.
  - run_result;
      match goal with
      | E : Date.yesterday _ = Err _ |- _ =>
          pose proof (TableFacts.yesterday_err _ _ E); subst; auto
      end.
Qed.

(** The slots of an AddCattle command that no text can change, and the
    values the others range over. *)
Lemma add_params today text lower cmd :
  _parse_add today text lower = Ok cmd ->
  Dict.get "breed" (params cmd) = Some (VStr "Angus") /\
  (exists ctype, Dict.get "type" (params cmd) = Some (VStr ctype) /\
                 In ctype (map fst CATTLE_TYPES)) /\
  (Dict.get "birth_date" (params cmd) = Some VNone \/
   Dict.get "birth_date" (params cmd) = Some (VDate today) \/
   exists d, Date.yesterday today = Ok d /\
             Dict.get "birth_date" (params cmd) = Some (VDate d)).
Proof.
  unfold _parse_add. intros H.
  run_result;
    repeat match goal with
      | E : first_category _ _ = Some _ |- _ =>
          apply TableFacts.first_category_found in E
      end;
    (split; [reflexivity|split; [eexists; split; [reflexivity|cbn; auto]|]]);
    eauto.
Qed.

(** The slots of a Query command. *)
Lemma query_params today text lower cmd :
  _parse_query today text lower = Ok cmd ->
  exists qt f,
    params cmd = [("query_type", VStr qt); ("filter", VDict f)] /\
    In qt ["count"; "location"; "list"] /\
    (qt = "location" <-> Py.contains "where" lower = true) /\
    Forall (fun k => In k ["type"; "since"; "tag"]) (Dict.keys f).
Proof.
  unfold _parse_query, filter_by_type, filter_set. intros H.
  run_result;
    (eexists _, _; split; [reflexivity|]; split; [cbn; auto|]; split;
     [split; intros; first [assumption|reflexivity|discriminate]
     |cbn; repeat (apply Forall_cons; [cbn; auto|]); apply Forall_nil]).
Qed.

(** The slots of a Health command of the event extractor. *)
Lemma event_params today text lower cmd :
  _parse_event today text lower = Ok cmd ->
  params cmd
  = [ ("tag", match Re.search Pat.cattle_id lower with
              | Some mt => group_val mt 1
              | None => VNone
              end);
      ("event_type", VStr match first_category EVENT_TYPES lower with
                          | Some etype => etype
                          | None => "note"
                          end);
      ("details", VStr match first_in CONDITIONS lower with
                       | Some condition => Py.title condition
                       | None => text
                       end);
      ("date", VDate today) ].
Proof.
  unfold _parse_event. intros H. run_result; reflexivity.
Qed.

Lemma event_renders today text lower cmd :
  _parse_event today text lower = Ok cmd ->
  ints_within_limit (VDict (params cmd)) = true.
Proof.
  intros H. apply event_params in H. rewrite H.
  destruct (Re.search Pat.cattle_id lower); [unfold group_val; destruct (Re.group _ _)|];
    reflexivity.
Qed.

Lemma move_tag text lower cmd :
  _parse_move text lower = Ok cmd ->
  Dict.get "tag" (params cmd)
  = Some match Re.search Pat.cattle_id lower with
         | Some mt => group_val mt 1
         | None => VNone
         end.
Proof.
  unfold _parse_move. intros H. run_result; reflexivity.
Qed.

(** The extractors use the text itself only as [raw_text]. *)
Lemma query_raw today t1 t2 lower c1 :
  _parse_query today t1 lower = Ok c1 ->
  _parse_query today t2 lower = Ok (with_raw_text t2 c1).
Proof. unfold _parse_query. intros H. inversion H. reflexivity. Qed.

Lemma sale_raw today t1 t2 lower c1 :
  _parse_sale today t1 lower = Ok c1 ->
  _parse_sale today t2 lower = Ok (with_raw_text t2 c1).
Proof.
  unfold _parse_sale, with_raw_text. intros H. run_result; reflexivity.
Qed.

Lemma move_raw t1 t2 lower c1 :
  _parse_move t1 lower = Ok c1 ->
  _parse_move t2 lower = Ok (with_raw_text t2 c1).
Proof.
  unfold _parse_move, with_raw_text. intros H. run_result; reflexivity.
Qed.

Lemma add_raw today t1 t2 lower c1 :
  _parse_add today t1 lower = Ok c1 ->
  _parse_add today t2 lower = Ok (with_raw_text t2 c1).
Proof.
  unfold _parse_add, with_raw_text. intros H. run_result; reflexivity.
Qed.

End ExtractorFacts.

(** ** What [parse] raises, and what it returns again *)

(** X1.  [parse] raises nothing but [ValueError], and then from the Sale
    extractor, or [OverflowError], and then from the AddCattle extractor on
    a text with "yesterday" on a day that has no predecessor. *)
Theorem parse_raises_only (today : date) (s : string) (e : exn) :
  CommandParser.parse today s = Err e ->
  (e = ValueError /\
   CommandParser.has_query (Py.lower (Py.strip s)) = false /\
   CommandParser.has_sale (Py.lower (Py.strip s)) = true) \/
  (e = OverflowError /\
   CommandParser.has_add (Py.lower (Py.strip s)) = true /\
   Py.contains "yesterday" (Py.lower (Py.strip s)) = true /\
   Date.yesterday today = Err OverflowError).
Proof.
  unfold CommandParser.parse. cbv zeta.
  destruct (CommandParser.is_help _); [discriminate|].
  destruct (CommandParser.is_status _); [discriminate|].
  destruct (CommandParser.has_query _) eqn:Eq; [discriminate|].
  destruct (CommandParser.has_sale _) eqn:Es.
  { intros H. apply ExtractorFacts.sale_err in H. auto. }
  destruct (CommandParser.has_event _); [discriminate|].
  destruct (CommandParser.has_move _).
  { destruct (ParserFacts.parse_move_spec (Py.strip s) (Py.lower (Py.strip s)))
      as (tag & loc & -> & _). discriminate. }
  destruct (CommandParser.has_add _) eqn:Ea.
  { intros H. apply ExtractorFacts.add_err in H as (-> & Hy & Hd). auto. }
  unfold CommandParser._infer_command.
  destruct (Re.search Pat.leading_tag (Py.strip s)) as [mt|] eqn:Em; [|discriminate].
  destruct (ParserFacts.leading_tag_groups _ mt Em) as (d & r & _ & Hr & _).
  unfold group_str. rewrite Hr. cbn [bind].
  destruct (Py.any_in _ _); discriminate.
Qed.

Lemma parse_raises_only_witness :
  (ValueError = ValueError /\
   CommandParser.has_query (Py.lower (Py.strip "sold . lb")) = false /\
   CommandParser.has_sale (Py.lower (Py.strip "sold . lb")) = true) \/
  (ValueError = OverflowError /\
   CommandParser.has_add (Py.lower (Py.strip "sold . lb")) = true /\
   Py.contains "yesterday" (Py.lower (Py.strip "sold . lb")) = true /\
   Date.yesterday example_day = Err OverflowError).
Proof. exact (parse_raises_only example_day "sold . lb" ValueError eq_refl). Defined.

(** The second case does occur. *)
Example parse_yesterday_overflow :
  CommandParser.parse (mkDate 1 1 1) "got a calf yesterday" = Err OverflowError.
Proof. reflexivity. Qed.

(** X2.  Parsing the [raw_text] of a returned command returns the same
    command again. *)
Theorem reparse_raw_text (today : date) (s : string) (cmd : ParsedCommand) :
  CommandParser.parse today s = Ok cmd ->
  CommandParser.parse today (raw_text cmd) = Ok cmd.
Proof.
  intros H. pose proof (ParserFacts.parse_outcomes today s cmd H) as [Hr _].
  rewrite Hr, <- H. unfold CommandParser.parse.
  rewrite StripFacts.strip_idem. reflexivity.
Qed.

Lemma reparse_raw_text_witness :
  CommandParser.parse example_day
    (raw_text (mkCommand MOVE [("tag", VStr "42"); ("location", VStr "North Pasture")]
                         0.9 "Cow 42 moved to north pasture"))
  = Ok (mkCommand MOVE [("tag", VStr "42"); ("location", VStr "North Pasture")]
                  0.9 "Cow 42 moved to north pasture").
Proof.
  exact (reparse_raw_text example_day "  Cow 42 moved to north pasture " _ eq_refl).
Defined.

(** X3.  Letter case matters only for what is stored verbatim: two ASCII
    inputs with the same trimmed, lower-cased text give, when the first is
    neither a Health nor an Unknown command, the same command up to
    [raw_text]. *)
Theorem case_only_in_raw_text (today : date) (s1 s2 : string) (c1 : ParsedCommand) :
  Py.isascii s1 = true ->
  Py.isascii s2 = true ->
  Py.lower (Py.strip s1) = Py.lower (Py.strip s2) ->
  CommandParser.parse today s1 = Ok c1 ->
  command_type c1 <> HEALTH ->
  command_type c1 <> UNKNOWN ->
  CommandParser.parse today s2 = Ok (with_raw_text (Py.strip s2) c1).
Proof.
  intros _ _ El H Hh Hu. apply ParserFacts.parse_inv in H.
  unfold CommandParser.parse. cbv zeta. rewrite <- El.
  destruct H as [E1 ->|E1 E2 ->|E1 E2 E3 H|E1 E2 E3 E4 H|E1 E2 E3 E4 E5 H
                 |E1 E2 E3 E4 E5 E6 H|E1 E2 E3 E4 E5 E6 E7 H
                 |E1 E2 E3 E4 E5 E6 E7 H];
    rewrite ?E1, ?E2, ?E3, ?E4, ?E5, ?E6, ?E7.
  - reflexivity.
  - reflexivity.
  - eapply ExtractorFacts.query_raw, H.
  - eapply ExtractorFacts.sale_raw, H.
  - apply ParserFacts.parse_event_shape in H as (Ht & _). congruence.
  - eapply ExtractorFacts.move_raw, H.
  - eapply ExtractorFacts.add_raw, H.
  - apply ParserFacts.parse_infer_shape in H as (_ & [(Ht & _)| ->]);
      [congruence|cbn in Hu; congruence].
Qed.

Lemma case_only_in_raw_text_witness :
  CommandParser.parse example_day "COW 42 MOVED TO NORTH PASTURE"
  = Ok (with_raw_text (Py.strip "COW 42 MOVED TO NORTH PASTURE")
          (mkCommand MOVE [("tag", VStr "42"); ("location", VStr "North Pasture")]
                     0.9 "cow 42 moved to north pasture")).
Proof.
  refine (case_only_in_raw_text example_day "cow 42 moved to north pasture"
            "COW 42 MOVED TO NORTH PASTURE" _ eq_refl eq_refl eq_refl eq_refl _ _);
    discriminate.
Defined.

(** X4.  A returned confidence lies between 0 and 1, and is 1 exactly for
    Help and Status. *)
Theorem confidence_bounds (today : date) (s : string) (cmd : ParsedCommand) :
  CommandParser.parse today s = Ok cmd ->
  PrimFloat.leb 0 (confidence cmd) = true /\
  PrimFloat.leb (confidence cmd) 1 = true /\
  (PrimFloat.eqb (confidence cmd) 1 = true <->
   command_type cmd = HELP \/ command_type cmd = STATUS).
Proof.
  intros H. apply ParserFacts.parse_outcomes in H as [_ H].
  cbn [In] in H.
  repeat (destruct H as [H|H]; [inversion H as [[Ht Hc]]; clear H|]);
    try contradiction;
    (split; [reflexivity|split; [reflexivity|]]);
    (split; [intros E; first [now auto|vm_compute in E; discriminate E]
            |intros [E|E]; first [reflexivity|discriminate E]]).
Qed.

Lemma confidence_bounds_witness :
  PrimFloat.leb 0 1 = true /\
  PrimFloat.leb 1 1 = true /\
  (PrimFloat.eqb 1 1 = true <-> HELP = HELP \/ HELP = STATUS).
Proof.
  exact (confidence_bounds example_day " Help " (mkCommand HELP [] 1 "Help") eq_refl).
Defined.

(** ** The intent alone *)

(** X5.  The intent of the command returned for an ASCII input is the
    one of the first check of the cascade that the trimmed, lower-cased
    text passes, whatever the extractor finds; when no check passes it is
    Health or Unknown. *)
Theorem intent_by_first_check (today : date) (s : string) (cmd : ParsedCommand) :
  Py.isascii s = true ->
  CommandParser.parse today s = Ok cmd ->
  match classify (Py.lower (Py.strip s)) with
  | Some intent => command_type cmd = intent
  | None => command_type cmd = HEALTH \/ command_type cmd = UNKNOWN
  end.
Proof.
  intros _ H. apply ParserFacts.parse_inv in H. unfold classify.
  destruct H as [E1 ->|E1 E2 ->|E1 E2 E3 H|E1 E2 E3 E4 H|E1 E2 E3 E4 E5 H
                 |E1 E2 E3 E4 E5 E6 H|E1 E2 E3 E4 E5 E6 E7 H
                 |E1 E2 E3 E4 E5 E6 E7 H];
    rewrite ?E1, ?E2, ?E3, ?E4, ?E5, ?E6, ?E7.
  - reflexivity.
  - reflexivity.
  - apply ParserFacts.parse_query_shape in H as (Ht & _). exact Ht.
  - apply ParserFacts.parse_sale_shape in H as (Ht & _). exact Ht.
  - apply ParserFacts.parse_event_shape in H as (Ht & _). exact Ht.
  - destruct (ParserFacts.parse_move_spec (Py.strip s) (Py.lower (Py.strip s)))
      as (tag & loc & Hm & _). rewrite Hm in H. inversion H. reflexivity.
  - apply ParserFacts.parse_add_shape in H as (Ht & _). exact Ht.
  - apply ParserFacts.parse_infer_shape in H as (_ & [(Ht & _)| ->]); auto.
Qed.

Lemma intent_by_first_check_witness :
  match classify (Py.lower (Py.strip "What can you do")) with
  | Some intent => HELP = intent
  | None => HELP = HEALTH \/ HELP = UNKNOWN
  end.
Proof.
  exact (intent_by_first_check example_day "What can you do"
           (mkCommand HELP [] 1 "What can you do") eq_refl eq_refl).
Defined.

(** ** The slots of the returned commands *)

(** X7.  The tag of an AddCattle command is always a non-empty string. *)
Theorem add_tag_populated (today : date) (s : string) (cmd : ParsedCommand) :
  CommandParser.parse today s = Ok cmd ->
  command_type cmd = ADD_CATTLE ->
  exists tag, Dict.get "tag" (params cmd) = Some (VStr tag) /\ tag <> EmptyString.
Proof.
  intros H Ht. apply ExtractorFacts.add_from_extractor in H; [|exact Ht].
  apply ExtractorFacts.add_tag_value in H. eexists. split; [exact H|].
  destruct (first_search Pat.tag_patterns _) as [mt|] eqn:Et.
  - destruct (ClassFacts.tag_patterns_group _ mt Et) as (g & -> & Hg).
    apply ClassFacts.upper_nonempty, Hg.
  - destruct (CommandParser.first_in _ _) as [color|].
    + destruct (Py.upper color); discriminate.
    + discriminate.
Qed.

Lemma add_tag_populated_witness :
  exists tag,
    Dict.get "tag"
      [ ("type", VStr "heifer"); ("breed", VStr "Angus"); ("birth_date", VNone);
        ("tag", VStr "RED-0305"); ("location", VNone); ("notes", VStr "red") ]
    = Some (VStr tag) /\ tag <> EmptyString.
Proof.
  exact (add_tag_populated example_day "bought red heifer"
           (mkCommand ADD_CATTLE
              [ ("type", VStr "heifer"); ("breed", VStr "Angus"); ("birth_date", VNone);
                ("tag", VStr "RED-0305"); ("location", VNone); ("notes", VStr "red") ]
              0.8 "bought red heifer")
           eq_refl eq_refl).
Defined.

(** X8.  The tag of the AddCattle command returned for an ASCII input is
    the group that the first matching tag pattern captures, upper-cased,
    whatever colours the text names; without a match it is the first colour of the text, upper-cased,
    followed by "-MMDD", and without a colour "NEW-MMDD". *)
Theorem add_tag_policy (today : date) (s : string) (cmd : ParsedCommand) :
  Py.isascii s = true ->
  CommandParser.parse today s = Ok cmd ->
  command_type cmd = ADD_CATTLE ->
  match first_search Pat.tag_patterns (Py.lower (Py.strip s)) with
  | Some mt =>
      exists g,
        Re.group mt 1 = Some g /\
        Dict.get "tag" (params cmd) = Some (VStr (Py.upper g))
  | None =>
      Dict.get "tag" (params cmd)
      = Some (VStr match CommandParser.first_in CommandParser.COLORS
                                                (Py.lower (Py.strip s)) with
                   | Some color => Py.upper color ++ "-" ++ Date.strftime_md today
                   | None => "NEW-" ++ Date.strftime_md today
                   end)
  end.
Proof.
  intros _ H Ht. apply ExtractorFacts.add_from_extractor in H; [|exact Ht].
  apply ExtractorFacts.add_tag_value in H.
  destruct (first_search Pat.tag_patterns _) as [mt|] eqn:Et; [|exact H].
  destruct (ClassFacts.tag_patterns_group _ mt Et) as (g & Hg & _).
  exists g. rewrite Hg in H. auto.
Qed.

Lemma add_tag_policy_witness :
  match first_search Pat.tag_patterns (Py.lower (Py.strip "new red heifer tag 7")) with
  | Some mt =>
      exists g,
        Re.group mt 1 = Some g /\
        Dict.get "tag"
          [ ("type", VStr "heifer"); ("breed", VStr "Angus"); ("birth_date", VNone);
            ("tag", VStr "7"); ("location", VNone); ("notes", VStr "red tag") ]
        = Some (VStr (Py.upper g))
  | None =>
      Dict.get "tag"
        [ ("type", VStr "heifer"); ("breed", VStr "Angus"); ("birth_date", VNone);
          ("tag", VStr "7"); ("location", VNone); ("notes", VStr "red tag") ]
      = Some (VStr match CommandParser.first_in CommandParser.COLORS
                           (Py.lower (Py.strip "new red heifer tag 7")) with
                   | Some color => Py.upper color ++ "-" ++ Date.strftime_md example_day
                   | None => "NEW-" ++ Date.strftime_md example_day
                   end)
  end.
Proof.
  exact (add_tag_policy example_day "new red heifer tag 7"
           (mkCommand ADD_CATTLE
              [ ("type", VStr "heifer"); ("breed", VStr "Angus"); ("birth_date", VNone);
                ("tag", VStr "7"); ("location", VNone); ("notes", VStr "red tag") ]
              0.8 "new red heifer tag 7")
           eq_refl eq_refl eq_refl).
Defined.

(** X9.  No text changes the breed of an AddCattle command: it is always
    "Angus"; the type is one of the five cattle types, and the birth date
    is absent, today or the day before. *)
Theorem add_fixed_slots (today : date) (s : string) (cmd : ParsedCommand) :
  CommandParser.parse today s = Ok cmd ->
  command_type cmd = ADD_CATTLE ->
  Dict.get "breed" (params cmd) = Some (VStr "Angus") /\
  (exists ctype, Dict.get "type" (params cmd) = Some (VStr ctype) /\
                 In ctype ["calf"; "cow"; "bull"; "steer"; "heifer"]) /\
  (Dict.get "birth_date" (params cmd) = Some VNone \/
   Dict.get "birth_date" (params cmd) = Some (VDate today) \/
   exists d, Date.yesterday today = Ok d /\
             Dict.get "birth_date" (params cmd) = Some (VDate d)).
Proof.
  intros H Ht. apply ExtractorFacts.add_from_extractor in H; [|exact Ht].
  exact (ExtractorFacts.add_params _ _ _ _ H).
Qed.

Lemma add_fixed_slots_witness :
  let p := [ ("type", VStr "bull"); ("breed", VStr "Angus");
             ("birth_date", VDate (mkDate 2024 3 4)); ("tag", VStr "NEW-0305");
             ("location", VNone); ("notes", VNone) ] in
  Dict.get "breed" p = Some (VStr "Angus") /\
  (exists ctype, Dict.get "type" p = Some (VStr ctype) /\
                 In ctype ["calf"; "cow"; "bull"; "steer"; "heifer"]) /\
  (Dict.get "birth_date" p = Some VNone \/
   Dict.get "birth_date" p = Some (VDate example_day) \/
   exists d, Date.yesterday example_day = Ok d /\
             Dict.get "birth_date" p = Some (VDate d)).
Proof.
  exact (add_fixed_slots example_day "bought a hereford bull yesterday"
           (mkCommand ADD_CATTLE
              [ ("type", VStr "bull"); ("breed", VStr "Angus");
                ("birth_date", VDate (mkDate 2024 3 4)); ("tag", VStr "NEW-0305");
                ("location", VNone); ("notes", VNone) ]
              0.8 "bought a hereford bull yesterday")
           eq_refl eq_refl).
Defined.

(** X6.  The add trigger "born" never selects the AddCattle extractor: a
    text that contains "born" is a Query, a Sale or a Health command. *)
Theorem born_never_adds (today : date) (s : string) (cmd : ParsedCommand) :
  Py.contains "born" (Py.lower (Py.strip s)) = true ->
  CommandParser.parse today s = Ok cmd ->
  command_type cmd = QUERY \/ command_type cmd = SALE \/ command_type cmd = HEALTH.
Proof.
  intros Hb H.
  assert (He : CommandParser.has_event (Py.lower (Py.strip s)) = true).
  { unfold CommandParser.has_event, CommandParser.EVENT_TYPES.
    cbn [map snd existsb]. 
    repeat rewrite Dispatch.any_in_cons. rewrite Hb.
    repeat rewrite ?orb_true_r, ?orb_true_l. reflexivity. }
  apply ParserFacts.parse_inv in H.
  remember (Py.lower (Py.strip s)) as low eqn:Elow. clear Elow.
  destruct H as [Hh ->|? Hh ->|? ? ? H|? ? ? ? H|? ? ? ? ? H|? ? ? ? ? ? H
                 |? ? ? ? ? ? ? H|? ? ? ? ? ? ? H];
    try congruence.
  - unfold CommandParser.is_help, Py.mem in Hh.
    cbn [existsb CommandParser.HELP_LITERALS] in Hh.
    repeat (apply orb_prop in Hh as [Hh|Hh]); try discriminate Hh;
      apply String.eqb_eq in Hh; subst low; vm_compute in Hb; discriminate Hb.
  - unfold CommandParser.is_status, Py.mem in Hh.
    cbn [existsb CommandParser.STATUS_LITERALS] in Hh.
    repeat (apply orb_prop in Hh as [Hh|Hh]); try discriminate Hh;
      apply String.eqb_eq in Hh; subst low; vm_compute in Hb; discriminate Hb.
  - apply ParserFacts.parse_query_shape in H as (Ht & _). auto.
  - apply ParserFacts.parse_sale_shape in H as (Ht & _). auto.
  - apply ParserFacts.parse_event_shape in H as (Ht & _). auto.
Qed.

Lemma born_never_adds_witness :
  HEALTH = QUERY \/ HEALTH = SALE \/ HEALTH = HEALTH.
Proof.
  exact (born_never_adds example_day "new calf born"
           (mkCommand HEALTH
              [ ("tag", VNone); ("event_type", VStr "birth");
                ("details", VStr "new calf born"); ("date", VDate example_day) ]
              0.85 "new calf born")
           eq_refl eq_refl).
Defined.

(** X10.  The event type of a Health command is one of the five event
    categories; when the text is ASCII and holds an event synonym it is
    the first category, in table order, one of whose synonyms occurs in
    the text. *)
Theorem health_event_type (today : date) (s : string) (cmd : ParsedCommand) :
  CommandParser.parse today s = Ok cmd ->
  command_type cmd = HEALTH ->
  exists etype,
    Dict.get "event_type" (params cmd) = Some (VStr etype) /\
    In etype ["vet"; "treatment"; "birth"; "death"; "note"] /\
    (Py.isascii s = true ->
     CommandParser.has_event (Py.lower (Py.strip s)) = true ->
     CommandParser.first_category CommandParser.EVENT_TYPES (Py.lower (Py.strip s))
     = Some etype).
Proof.
  intros H Ht. apply ExtractorFacts.health_from in H as [[He H]|[He H]]; [| |exact Ht].
  - apply ExtractorFacts.event_params in H. rewrite H.
    destruct (TableFacts.has_event_category _ He) as (e & Ee). rewrite Ee.
    exists e. split; [reflexivity|]. split; [|auto].
    exact (TableFacts.first_category_found _ _ _ Ee).
  - exists "note". split; [|split; [cbn; auto 6|intros _; congruence]].
    unfold CommandParser._infer_command in H.
    destruct (Re.search Pat.leading_tag (Py.strip s)) as [mt|];
      [|inversion H; subst; discriminate Ht].
    destruct (group_str mt 2) as [g|]; [|discriminate H]. cbn [bind] in H.
    destruct (Py.any_in _ _); inversion H; subst; [reflexivity|discriminate Ht].
Qed.

Lemma health_event_type_witness :
  exists etype,
    Dict.get "event_type"
      [ ("tag", VStr "15"); ("event_type", VStr "vet");
        ("details", VStr "Pink Eye"); ("date", VDate example_day) ]
    = Some (VStr etype) /\
    In etype ["vet"; "treatment"; "birth"; "death"; "note"] /\
    (Py.isascii "vet visit cow 15 pink eye" = true ->
     CommandParser.has_event (Py.lower (Py.strip "vet visit cow 15 pink eye")) = true ->
     CommandParser.first_category CommandParser.EVENT_TYPES
       (Py.lower (Py.strip "vet visit cow 15 pink eye"))
     = Some etype).
Proof.
  exact (health_event_type example_day "vet visit cow 15 pink eye"
           (mkCommand HEALTH
              [ ("tag", VStr "15"); ("event_type", VStr "vet");
                ("details", VStr "Pink Eye"); ("date", VDate example_day) ]
              0.85 "vet visit cow 15 pink eye")
           eq_refl eq_refl).
Defined.

(** X11.  The tag of a Move or Health command is [None] or a non-empty
    string, which on ASCII input consists of the digits 0 to 9. *)
Theorem tag_is_digits (today : date) (s : string) (cmd : ParsedCommand) :
  CommandParser.parse today s = Ok cmd ->
  command_type cmd = MOVE \/ command_type cmd = HEALTH ->
  Dict.get "tag" (params cmd) = Some VNone \/
  exists g, Dict.get "tag" (params cmd) = Some (VStr g) /\
            g <> EmptyString /\
            (Py.isascii s = true -> Py.all_chars Py.isdigit g = true).
Proof.
  assert (Hid : forall lower,
             match Re.search Pat.cattle_id lower with
             | Some mt => group_val mt 1
             | None => VNone
             end = VNone \/
             exists g, match Re.search Pat.cattle_id lower with
                       | Some mt => group_val mt 1
                       | None => VNone
                       end = VStr g /\
                       g <> EmptyString /\
                       (Py.isascii s = true -> Py.all_chars Py.isdigit g = true)).
  { intros lower. destruct (Re.search Pat.cattle_id lower) as [mt|] eqn:E; [|auto].
    destruct (ParserFacts.cattle_id_group _ _ E) as (g & Hg & Hn).
    right. exists g. unfold group_val. rewrite Hg.
    repeat split; [exact Hn|]. intros _. eapply ClassFacts.cattle_id_digits; eauto. }
  intros H [Ht|Ht].
  - apply Dispatch.move_from_extractor in H; [|exact Ht].
    apply ExtractorFacts.move_tag in H. rewrite H.
    destruct (Hid (Py.lower (Py.strip s))) as [->|(g & -> & Hg)]; eauto.
  - apply ExtractorFacts.health_from in H as [[He H]|[He H]]; [| |exact Ht].
    + apply ExtractorFacts.event_params in H. rewrite H. cbn [Dict.get].
      change (String.eqb "tag" "tag") with true. cbv iota.
      destruct (Hid (Py.lower (Py.strip s))) as [->|(g & -> & Hg)]; eauto.
    + unfold CommandParser._infer_command in H.
      destruct (Re.search Pat.leading_tag (Py.strip s)) as [mt|] eqn:Em;
        [|inversion H; subst; discriminate Ht].
      destruct (ReFacts.leading_tag_sound _ _ Em)
        as (d & w & r & tl & _ & _ & Hd & Hd' & _ & _ & _ & _ & Hg1 & Hg2).
      unfold group_val, group_str in H. rewrite Hg1, Hg2 in H. cbn [bind] in H.
      destruct (Py.any_in _ _); inversion H; subst; [|discriminate Ht].
      right. exists d. auto.
Qed.

Lemma tag_is_digits_witness :
  Dict.get "tag" [("tag", VStr "42"); ("location", VStr "North Pasture")] = Some VNone \/
  exists g, Dict.get "tag" [("tag", VStr "42"); ("location", VStr "North Pasture")]
            = Some (VStr g) /\
            g <> EmptyString /\
            (Py.isascii "cow 42 moved to north pasture" = true ->
             Py.all_chars Py.isdigit g = true).
Proof.
  exact (tag_is_digits example_day "cow 42 moved to north pasture"
           (mkCommand MOVE [("tag", VStr "42"); ("location", VStr "North Pasture")]
                      0.9 "cow 42 moved to north pasture")
           eq_refl (or_introl eq_refl)).
Defined.

(** X12.  A Sale command holds a non-negative head count, a price and a
    weight that are absent or floats, one of the five sale types, the date
    of the day, and never a buyer. *)
Theorem sale_slots (today : date) (s : string) (cmd : ParsedCommand) :
  CommandParser.parse today s = Ok cmd ->
  command_type cmd = SALE ->
  exists n p w ct,
    params cmd = [ ("head_count", VInt n); ("price_per_lb", p); ("avg_weight", w);
                   ("cattle_type", VStr ct); ("buyer", VNone); ("date", VDate today) ] /\
    (0 <= n)%Z /\
    (p = VNone \/ exists f, p = VFloat f) /\
    (w = VNone \/ exists f, w = VFloat f) /\
    In ct ["steer"; "heifer"; "cow"; "bull"; "calf"].
Proof.
  intros H Ht. apply ExtractorFacts.sale_from_extractor in H; [|exact Ht].
  exact (ExtractorFacts.sale_params _ _ _ _ H).
Qed.

Lemma sale_slots_witness :
  exists n p w ct,
    [ ("head_count", VInt 12); ("price_per_lb", VNone); ("avg_weight", VNone);
      ("cattle_type", VStr "heifer"); ("buyer", VNone); ("date", VDate example_day) ]
    = [ ("head_count", VInt n); ("price_per_lb", p); ("avg_weight", w);
        ("cattle_type", VStr ct); ("buyer", VNone); ("date", VDate example_day) ] /\
    (0 <= n)%Z /\
    (p = VNone \/ exists f, p = VFloat f) /\
    (w = VNone \/ exists f, w = VFloat f) /\
    In ct ["steer"; "heifer"; "cow"; "bull"; "calf"].
Proof.
  exact (sale_slots example_day "sold 12 heifers to miller"
           (mkCommand SALE
              [ ("head_count", VInt 12); ("price_per_lb", VNone); ("avg_weight", VNone);
                ("cattle_type", VStr "heifer"); ("buyer", VNone);
                ("date", VDate example_day) ]
              0.9 "sold 12 heifers to miller")
           eq_refl eq_refl).
Defined.

(** X13.  A Query command holds a query type among count, location and
    list, which is location exactly when the text contains "where", and a
    filter mapping whose keys are among type, since and tag. *)
Theorem query_slots (today : date) (s : string) (cmd : ParsedCommand) :
  CommandParser.parse today s = Ok cmd ->
  command_type cmd = QUERY ->
  exists qt f,
    params cmd = [("query_type", VStr qt); ("filter", VDict f)] /\
    In qt ["count"; "location"; "list"] /\
    (qt = "location" <-> Py.contains "where" (Py.lower (Py.strip s)) = true) /\
    Forall (fun k => In k ["type"; "since"; "tag"]) (Dict.keys f).
Proof.
  intros H Ht. apply Dispatch.query_from_extractor in H; [|exact Ht].
  exact (ExtractorFacts.query_params _ _ _ _ H).
Qed.

Lemma query_slots_witness :
  exists qt f,
    [("query_type", VStr "location"); ("filter", VDict [("tag", VStr "42")])]
    = [("query_type", VStr qt); ("filter", VDict f)] /\
    In qt ["count"; "location"; "list"] /\
    (qt = "location" <-> Py.contains "where" (Py.lower (Py.strip "Where is 42?")) = true) /\
    Forall (fun k => In k ["type"; "since"; "tag"]) (Dict.keys f).
Proof.
  exact (query_slots example_day "Where is 42?"
           (mkCommand QUERY
              [("query_type", VStr "location"); ("filter", VDict [("tag", VStr "42")])]
              0.85 "Where is 42?")
           eq_refl eq_refl).
Defined.

(** ** Rendering what [parse] returns *)

Module RenderFacts.

#[local] Opaque Num.float_of_Z Num.format_comma_0f ints_within_limit.

Lemma renders_dict d :
  ints_within_limit (VDict d) = forallb (fun e => ints_within_limit (snd e)) d.
Proof. reflexivity. Qed.

Lemma get_renders d k v :
  ints_within_limit (VDict d) = true -> Dict.get k d = Some v ->
  ints_within_limit v = true.
Proof.
  rewrite renders_dict.
  induction d as [|[k' v'] d IH]; cbn [Dict.get forallb snd]; [discriminate|].
  intros H. apply andb_prop in H as [Hv Hd].
  destruct (String.eqb k' k); [intros E; inversion E; subst; exact Hv|auto].
Qed.

Lemma get_default_renders d k dflt :
  ints_within_limit (VDict d) = true -> ints_within_limit dflt = true ->
  ints_within_limit (Dict.get_default k dflt d) = true.
Proof.
  intros Hd Hv. unfold Dict.get_default.
  destruct (Dict.get k d) eqn:E; [exact (get_renders d k _ Hd E)|exact Hv].
Qed.

Lemma get_none_renders d k :
  ints_within_limit (VDict d) = true ->
  ints_within_limit (Dict.get_none k d) = true.
Proof. intros Hd. apply get_default_renders; [exact Hd|reflexivity]. Qed.

(** [str] returns on a value whose integers are within the limit. *)
Lemma py_str_ok repr v :
  ints_within_limit v = true -> exists out, py_str repr v = Ok out.
Proof. intros H. unfold py_str. rewrite H. eexists. reflexivity. Qed.

Lemma plain_renders d :
  forallb (fun e => plain (snd e)) d = true -> ints_within_limit (VDict d) = true.
Proof.
  rewrite renders_dict. induction d as [|[k v] d IH]; cbn [forallb snd]; [auto|].
  intros H. apply andb_prop in H as [Hv Hd]. rewrite (IH Hd), andb_true_r.
  destruct v; try exact Hv; discriminate Hv.
Qed.

(** Every slot of a returned command can be rendered. *)
Lemma parse_renders today s cmd :
  CommandParser.parse today s = Ok cmd ->
  ints_within_limit (VDict (params cmd)) = true.
Proof.
  intros H. apply ParserFacts.parse_inv in H.
  destruct H as [? ->|? ? ->|? ? ? H|? ? ? ? H|? ? ? ? ? H|? ? ? ? ? ? H
                 |? ? ? ? ? ? ? H|? ? ? ? ? ? ? H]; try reflexivity.
  - eapply ExtractorFacts.query_renders, H.
  - eapply ExtractorFacts.sale_renders, H.
  - eapply ExtractorFacts.event_renders, H.
  - eapply ExtractorFacts.move_renders, H.
  - eapply ExtractorFacts.add_renders, H.
  - eapply ExtractorFacts.infer_renders, H.
Qed.

(** Render the fields of an f-string one after the other. *)
Ltac render_fields Hp Hr :=
  repeat match goal with
    | |- context [py_str ?repr ?v] =>
        let E := fresh "E" in
        let out := fresh "out" in
        destruct (py_str_ok repr v) as (out & E);
        [first [ reflexivity
               | apply get_none_renders; assumption
               | apply get_default_renders; [assumption|reflexivity] ]
        |rewrite E; cbn [bind]]
    end.

Lemma sale_amount_returns p w n fn :
  p = VNone \/ (exists f, p = VFloat f) ->
  w = VNone \/ (exists f, w = VFloat f) ->
  Num.float_of_Z n = Ok fn ->
  exists out,
    (pw <- py_mul (py_or p (VInt 0)) (py_or w (VInt 0)) ;;
     amt <- py_mul pw (VInt n) ;;
     py_format_comma_0f amt) = Ok out.
Proof.
  intros Hp Hw Hf.
  assert (H0 : Num.float_of_Z 0 = Ok 0%float) by reflexivity.
  destruct Hp as [->|(pf & ->)]; destruct Hw as [->|(wf & ->)];
    unfold py_or; cbn [truthy];
    repeat match goal with
           | |- context [negb ?b] => destruct b; cbn [negb]
           end;
    cbn; rewrite ?H0, ?Hf; cbn; rewrite ?H0, ?Hf; cbn; eauto.
Qed.

End RenderFacts.

(** X14.  For a returned command that is not a Sale, and an execution
    result that carries neither a sales amount nor a cattle list and
    whose values are plain (no container, no integer beyond the limit of
    the conversion to text; the empty result and the error result are
    such), [generate_response] returns a text. *)
Theorem render_returns (today : date) (s : string) (cmd : ParsedCommand)
        (repr : value -> string) (res : dict) :
  CommandParser.parse today s = Ok cmd ->
  command_type cmd <> SALE ->
  Dict.get "sales_ytd_amount" res = None ->
  Dict.get "cattle" res = None ->
  forallb (fun e => plain (snd e)) res = true ->
  exists out, generate_response repr cmd res = Ok out.
Proof.
  intros H Hs Ha Hc Hplain.
  assert (Hres : ints_within_limit (VDict res) = true)
    by (apply RenderFacts.plain_renders, Hplain).
  pose proof (RenderFacts.parse_renders _ _ _ H) as Hr.
  apply ParserFacts.parse_inv in H.
  destruct H as [? ->|? ? ->|? ? ? H|? ? ? ? H|? ? ? ? ? H|? ? ? ? ? ? H
                 |? ? ? ? ? ? ? H|? ? ? ? ? ? ? H].
  - eexists. reflexivity.
  - unfold generate_response. cbn [command_type]. cbv zeta.
    RenderFacts.render_fields Hr Hres.
    unfold Dict.get_default at 1. rewrite Ha. eexists. reflexivity.
  - pose proof (ParserFacts.parse_query_shape _ _ _ _ H) as (Ht & _).
    apply ExtractorFacts.query_params in H as (qt & f & Hp & Hin & _ & _).
    unfold generate_response. rewrite Ht, Hp. rewrite Hp in Hr.
    assert (Hf : ints_within_limit (VDict f) = true).
    { exact (RenderFacts.get_renders _ "filter" _ Hr eq_refl). }
    cbn [In] in Hin. destruct Hin as [<-|[<-|[<-|[]]]]; cbn.
    + RenderFacts.render_fields Hr Hres. eexists. reflexivity.
    + RenderFacts.render_fields Hr Hres. eexists. reflexivity.
    + unfold Dict.get_default. rewrite Hc. eexists. reflexivity.
  - apply ParserFacts.parse_sale_shape in H as (Ht & _). congruence.
  - apply ParserFacts.parse_event_shape in H as (Ht & _).
    unfold generate_response. rewrite Ht. cbv zeta.
    RenderFacts.render_fields Hr Hres. eexists. reflexivity.
  - destruct (ParserFacts.parse_move_spec (Py.strip s) (Py.lower (Py.strip s)))
      as (tag & loc & Hm & _). rewrite Hm in H. inversion H; subst.
    unfold generate_response. cbn [command_type]. cbv zeta.
    RenderFacts.render_fields Hr Hres. eexists. reflexivity.
  - apply ParserFacts.parse_add_shape in H as (Ht & _).
    unfold generate_response. rewrite Ht. cbv zeta.
    RenderFacts.render_fields Hr Hres. eexists. reflexivity.
  - apply ParserFacts.parse_infer_shape in H as (_ & [(Ht & _)| ->]).
    + unfold generate_response. rewrite Ht. cbv zeta.
      RenderFacts.render_fields Hr Hres. eexists. reflexivity.
    + eexists. reflexivity.
Qed.

Lemma render_returns_witness :
  exists out,
    generate_response (fun _ => EmptyString)
      (mkCommand QUERY [("query_type", VStr "list"); ("filter", VDict [])]
                 0.85 "show all")
      [("error", VStr "database is locked")]
    = Ok out.
Proof.
  refine (render_returns example_day "show all" _ (fun _ => EmptyString)
            [("error", VStr "database is locked")] eq_refl _ eq_refl eq_refl eq_refl).
  discriminate.
Defined.

(** X15.  The confirmation of a returned Sale command is rendered
    whenever its head count converts to a float. *)
Theorem sale_render_returns (today : date) (s : string) (cmd : ParsedCommand)
        (repr : value -> string) (res : dict) (n : Z) (fn : float) :
  CommandParser.parse today s = Ok cmd ->
  command_type cmd = SALE ->
  Dict.get "head_count" (params cmd) = Some (VInt n) ->
  Num.float_of_Z n = Ok fn ->
  exists out, generate_response repr cmd res = Ok out.
Proof.
  intros H Ht Hn Hf.
  pose proof (RenderFacts.parse_renders _ _ _ H) as Hr.
  apply ExtractorFacts.sale_from_extractor in H; [|exact Ht].
  apply ExtractorFacts.sale_params in H as (n' & p & w & ct & Hp & _ & Hpv & Hwv & _).
  rewrite Hp in Hn. cbn in Hn. inversion Hn; subst n'. clear Hn.
  assert (E1 : Dict.get_default "price_per_lb" (VInt 0) (params cmd) = p)
    by (rewrite Hp; reflexivity).
  assert (E2 : Dict.get_default "avg_weight" (VInt 0) (params cmd) = w)
    by (rewrite Hp; reflexivity).
  assert (E3 : Dict.get_default "head_count" (VInt 1) (params cmd) = VInt n)
    by (rewrite Hp; reflexivity).
  destruct (RenderFacts.sale_amount_returns p w n fn Hpv Hwv Hf) as (out & Ho).
  unfold generate_response. rewrite Ht. cbv zeta. rewrite E1, E2, E3.
  unfold bind in *.
  destruct (py_mul (py_or p (VInt 0)) (py_or w (VInt 0))) as [pw|]; [|discriminate Ho].
  destruct (py_mul pw (VInt n)) as [amt|]; [|discriminate Ho].
  destruct (RenderFacts.py_str_ok repr (Dict.get_none "head_count" (params cmd)))
    as (o1 & ->); [apply RenderFacts.get_none_renders, Hr|].
  destruct (RenderFacts.py_str_ok repr (Dict.get_none "cattle_type" (params cmd)))
    as (o2 & ->); [apply RenderFacts.get_none_renders, Hr|].
  rewrite Ho. eexists. reflexivity.
Qed.

Lemma sale_render_returns_witness :
  exists out,
    generate_response (fun _ => EmptyString)
      (mkCommand SALE
         [ ("head_count", VInt 12); ("price_per_lb", VNone); ("avg_weight", VNone);
           ("cattle_type", VStr "heifer"); ("buyer", VNone); ("date", VDate example_day) ]
         0.9 "sold 12 heifers to miller")
      []
    = Ok out.
Proof.
  exact (sale_render_returns example_day "sold 12 heifers to miller" _
           (fun _ => EmptyString) [] 12 12 eq_refl eq_refl eq_refl eq_refl).
Defined.

(** ** [main.py]: who may send commands *)

Module AuthFacts.
Import Auth.

Lemma split_piece sep p :
  Py.all_chars (fun c => negb (Ascii.eqb c sep)) p = true ->
  split sep p = [p].
Proof.
  induction p as [|a p IH]; cbn [split Py.all_chars]; [reflexivity|].
  intros H. apply andb_prop in H as [Ha Hp].
  apply negb_true_iff in Ha. rewrite Ha, (IH Hp). reflexivity.
Qed.

Lemma split_app sep p rest :
  Py.all_chars (fun c => negb (Ascii.eqb c sep)) p = true ->
  split sep (p ++ String sep rest) = p :: split sep rest.
Proof.
  induction p as [|a p IH]; cbn [split Py.all_chars append].
  - intros _. rewrite Ascii.eqb_refl. reflexivity.
  - intros H. apply andb_prop in H as [Ha Hp].
    apply negb_true_iff in Ha. rewrite Ha, (IH Hp). reflexivity.
Qed.

Lemma split_join sep p ps :
  Forall (fun n => Py.all_chars (fun c => negb (Ascii.eqb c sep)) n = true) (p :: ps) ->
  split sep (join sep (p :: ps)) = p :: ps.
Proof.
  revert p. induction ps as [|q ps IH]; intros p H; inversion H; subst.
  - apply split_piece. assumption.
  - change (join sep (p :: q :: ps)) with (p ++ String sep (join sep (q :: ps))).
    rewrite split_app by assumption. rewrite IH by assumption. reflexivity.
Qed.

Lemma split_blank sep env :
  Py.all_chars (fun c => Py.isspace c || Ascii.eqb c sep) env = true ->
  Forall (fun p => Py.all_chars Py.isspace p = true) (split sep env).
Proof.
  induction env as [|a env IH]; cbn [split Py.all_chars].
  - intros _. repeat constructor.
  - intros H. apply andb_prop in H as [Ha He]. specialize (IH He).
    destruct (Ascii.eqb a sep) eqn:Es.
    + constructor; [reflexivity|exact IH].
    + rewrite orb_false_r in Ha.
      destruct (split sep env) as [|p ps]; [repeat constructor; cbn; now rewrite Ha|].
      inversion IH; subst. constructor; [cbn; now rewrite Ha|assumption].
  Qed.

End AuthFacts.

(** X16.  Every entry of the list of authorized numbers is non-empty and
    carries no surrounding whitespace, whatever the configuration string. *)
Theorem authorized_numbers_clean (env n : string) :
  In n (Auth.AUTHORIZED_NUMBERS env) ->
  n <> EmptyString /\ Py.strip n = n.
Proof.
  unfold Auth.AUTHORIZED_NUMBERS. intros H.
  apply in_map_iff in H as (p & <- & Hp).
  apply filter_In in Hp as [_ Hp]. apply negb_true_iff in Hp.
  split; [apply String.eqb_neq, Hp|apply StripFacts.strip_idem].
Qed.

Lemma authorized_numbers_clean_witness :
  "+15550002" <> EmptyString /\ Py.strip "+15550002" = "+15550002".
Proof.
  apply (authorized_numbers_clean " +15550001 , +15550002,,").
  cbn. auto.
Defined.

(** X17.  A list of ASCII numbers that are non-empty, free of commas and
    of surrounding whitespace, written down comma-separated, is read back
    unchanged. *)
Theorem authorized_numbers_roundtrip (numbers : list string) :
  Forall (fun n => Py.isascii n = true /\ n <> EmptyString /\ Py.strip n = n /\
                   Py.all_chars (fun c => negb (Ascii.eqb c ",")) n = true) numbers ->
  Auth.AUTHORIZED_NUMBERS (Auth.join "," numbers) = numbers.
Proof.
  intros H. unfold Auth.AUTHORIZED_NUMBERS.
  assert (Hs : numbers = [] \/
               Auth.split "," (Auth.join "," numbers) = numbers).
  { destruct numbers as [|p ps]; [auto|right].
    apply AuthFacts.split_join.
    eapply Forall_impl; [|exact H]. cbn. intros n (_ & _ & _ & Hn). exact Hn. }
  destruct Hs as [-> | ->]; [reflexivity|].
  induction H as [|n ns (_ & Hn & Hst & _) _ IH]; [reflexivity|].
  cbn [filter map]. rewrite Hst.
  apply String.eqb_neq in Hn. rewrite Hn. cbn [negb map].
  rewrite Hst, IH. reflexivity.
Qed.

Lemma authorized_numbers_roundtrip_witness :
  Auth.AUTHORIZED_NUMBERS (Auth.join "," ["+15550001"; "+15550002"])
  = ["+15550001"; "+15550002"].
Proof.
  apply authorized_numbers_roundtrip.
  repeat constructor; discriminate.
Defined.

(** X18.  A configuration string made of commas and whitespace only (the
    empty string included) names no number, and then every sender is
    authorized. *)
Theorem blank_configuration_is_open (env phone : string) :
  Py.all_chars (fun c => Py.isspace c || Ascii.eqb c ",") env = true ->
  Auth.AUTHORIZED_NUMBERS env = [] /\
  Auth.check_authorized (Auth.AUTHORIZED_NUMBERS env) phone = true.
Proof.
  intros H. apply AuthFacts.split_blank in H.
  assert (E : Auth.AUTHORIZED_NUMBERS env = []).
  { unfold Auth.AUTHORIZED_NUMBERS.
    induction H as [|p ps Hp _ IH]; [reflexivity|].
    cbn [filter]. rewrite (StripFacts.strip_ws p Hp). cbn. exact IH. }
  rewrite E. split; reflexivity.
Qed.

Lemma blank_configuration_is_open_witness :
  Auth.AUTHORIZED_NUMBERS " , ," = [] /\
  Auth.check_authorized (Auth.AUTHORIZED_NUMBERS " , ,") "+15550009" = true.
Proof. exact (blank_configuration_is_open " , ," "+15550009" eq_refl). Defined.
